(** * Target resolution and job execution for Kusto clusters

    A shallow embedding of [pkg/kustoutils/utils.go] (package [kustoutils]
    of the azure-schema-operator) and the properties its specification
    states about it.

    Conventions of the embedding:
    - a Go [string] is a [string] (a sequence of bytes);
    - a Go [[]string] is a [list string]; the nil slice and the empty slice,
      which the package never tells apart (it only takes [len] and ranges),
      are both [[]];
    - a Go [error] is the message its [Error()] method yields, and the nil
      error is [None];
    - a run-time panic is a [Panic] outcome;
    - a method's receiver is a cluster that exists (not a nil pointer);
    - calls that leave the process (the Kusto management endpoint, the
      webhook, the delta-kusto tool, the logger) are recorded in a trace.
      Building a client ([NewWebHookClient], [kusto.NewStmt],
      [context.Background]) leaves no event. *)

From Stdlib Require Import Ascii.
From stdpp Require Import base strings gmap list.

Set Default Proof Using "Type".

(** ** Go run-time outcomes *)

Inductive panic : Type :=
| IndexOutOfRange (i len : nat)
| NilDereference.

Inductive Result (A : Type) : Type :=
| Ret (a : A)
| Panic (p : panic).
Arguments Ret {A} a.
Arguments Panic {A} p.

Definition error : Type := string.

(** [l[i]] on a slice: out of range is a run-time panic. *)
Definition index {A : Type} (l : list A) (i : nat) : Result A :=
  match l !! i with
  | Some x => Ret x
  | None => Panic (IndexOutOfRange i (length l))
  end.

Definition rbind {A B : Type} (r : Result A) (k : A → Result B) : Result B :=
  match r with
  | Ret a => k a
  | Panic p => Panic p
  end.

(** ** The [strings] package: [Index], [Count], [Split] *)

Module strings.

(** [s[n:]] and [s[:n]]. *)
Fixpoint drop (n : nat) (s : string) : string :=
  match n, s with
  | 0, _ => s
  | S _, EmptyString => EmptyString
  | S n', String _ s' => drop n' s'
  end.

Fixpoint take (n : nat) (s : string) : string :=
  match n, s with
  | 0, _ => EmptyString
  | S _, EmptyString => EmptyString
  | S n', String c s' => String c (take n' s')
  end.

Definition HasPrefix (s pre : string) : bool := String.prefix pre s.

(** [Index s substr]: the position of the first instance of [substr] in
    [s]; [None] stands for Go's [-1]. *)
Fixpoint Index (s substr : string) : option nat :=
  if HasPrefix s substr then Some 0
  else match s with
       | EmptyString => None
       | String _ s' => S <$> Index s' substr
       end.

Definition Contains (s substr : string) : bool :=
  bool_decide (is_Some (Index s substr)).

(** [Count s substr] for a non-empty [substr]: the number of
    non-overlapping instances. Each round drops at least one byte, so
    [String.length s] rounds are enough. *)
Fixpoint Count_loop (fuel : nat) (s substr : string) : nat :=
  match fuel with
  | 0 => 0
  | S fuel' =>
      match Index s substr with
      | None => 0
      | Some i => S (Count_loop fuel' (drop (i + String.length substr) s) substr)
      end
  end.

Definition Count (s substr : string) : nat :=
  Count_loop (String.length s) s substr.

(** The loop of [genSplit]: at most [n] cuts, then the rest. *)
Fixpoint genSplit_loop (n : nat) (s sep : string) : list string :=
  match n with
  | 0 => [s]
  | S n' =>
      match Index s sep with
      | None => [s]
      | Some m => take m s :: genSplit_loop n' (drop (m + String.length sep) s) sep
      end
  end.

Fixpoint explode (s : string) : list string :=
  match s with
  | EmptyString => []
  | String c s' => String c EmptyString :: explode s'
  end.

(** [Split s sep] is [genSplit(s, sep, 0, -1)]. With the empty separator
    Go explodes [s] into UTF-8 sequences; [explode] does so byte by byte,
    which is the same on ASCII text. This package only splits on
    ["https://"] and ["."]. *)
Definition Split (s sep : string) : list string :=
  match sep with
  | EmptyString => explode s
  | _ =>
      let n := Nat.min (Count s sep + 1) (String.length s + 1) in
      genSplit_loop (n - 1) s sep
  end.

End strings.

(** ** [ClusterNameFromURI] *)

Definition ClusterNameFromURI (uri : string) : Result string :=
  rbind (index (strings.Split uri "https://") 1) (λ rest,
  index (strings.Split rest ".") 0).

(** ** What the package calls but does not define

    [regexp] is Go's standard library; the Kusto driver, the webhook client
    ([NewWebHookClient], [PerformQuery]), [StoreKQLSchemaToFile],
    [RunDeltaKusto] and the delta-kusto [Wrapper] live in other files or
    modules. They are parameters of the embedding: each is the answer the
    collaborator gives to one call. *)

Class RegexpPkg : Type := {
  Regexp : Type;
  (** [regexp.Compile]: a compiled expression or an error, never both. *)
  Compile : string → Regexp + error;
  MatchString : Regexp → string → bool;
}.

Class Collaborators : Type := {
  #[global] regexp_pkg :: RegexpPkg;
  (** [WebHookClient.PerformQuery(url, cluster, label)]. *)
  PerformQuery : string → string → string → list string * option error;
  StoreKQLSchemaToFile : string → string * option error;
  RunDeltaKusto : string → option error;
}.

(** A row of the result table; [Values[i].String()] is the [i]-th entry. *)
Record Row : Type := { Values : list string }.

(** What [RowIterator.NextRowOrError] hands to the callback: a row, or an
    inline error in place of one. *)
Inductive RowOrError : Type :=
| IsRow (row : Row)
| IsInlineError (inlineError : error).

(** The rows an iterator will deliver, and how it ends: [None] is [io.EOF],
    [Some e] a terminal error. *)
Record RowIterator : Type := {
  pending : list RowOrError;
  terminal : option error;
}.

(** Of [QueryClient] only [Mgmt] is called: [(db, statement)] to an iterator
    or an error. *)
Record QueryClient : Type := {
  Mgmt : string → string → RowIterator + error;
}.

Record Wrapper : Type := {
  wrapper_CreateExecConfiguration :
    string → list string → string → bool → string * option error;
}.

Record KustoCluster : Type := {
  URI : string;
  Databases : list string;
  Client : QueryClient;
  wrapper : Wrapper;
}.

(** The types of [api/v1alpha1], with the fields this package reads or
    writes. *)
Record TargetFilter : Type := {
  DB : string;
  DBS : list string;
  Webhook : string;
  Label : string;
}.

Record ClusterTargets : Type := { DBs : list string }.

Record ExecutionConfiguration : Type := {
  KQLFile : string;
  JobFile : string;
}.

Record ConfigMap : Type := { Data : gmap string string }.

(** ** Effects: a trace of the calls that leave the package *)

Inductive Level : Type := InfoLevel | ErrorLevel.

Inductive Event : Type :=
| Logged (lvl : Level) (err : option error) (msg : string)
| MgmtCalled (db stmt : string)
| IterStopped
| WebhookCalled (url cluster label : string)
| KQLStored (kql : string)
| WrapperCalled (uri : string) (dbs : list string) (kqlFile : string)
    (failIfDataLoss : bool)
| DeltaKustoRun (jobFile : string).

(** The trace, oldest event first. *)
Abbreviation World := (list Event) (only parsing).

Definition M (A : Type) : Type := World → Result A * World.

#[global] Instance M_ret : MRet M := λ A a w, (Ret a, w).

#[global] Instance M_bind : MBind M := λ A B k m w,
  match m w with
  | (Ret a, w') => k a w'
  | (Panic p, w') => (Panic p, w')
  end.

Definition emit (e : Event) : M unit := λ w, (Ret (), w ++ [e]).

Definition lift {A : Type} (r : Result A) : M A := λ w, (r, w).

(** [defer cleanup; body]: [cleanup] runs when [body] returns and when it
    panics, and the panic goes on afterwards. *)
Definition defer {A : Type} (cleanup : M unit) (body : M A) : M A := λ w,
  match body w with
  | (Ret a, w') =>
      match cleanup w' with
      | (Ret _, w'') => (Ret a, w'')
      | (Panic p, w'') => (Panic p, w'')
      end
  | (Panic p, w') =>
      match cleanup w' with
      | (Ret _, w'') => (Panic p, w'')
      | (Panic p', w'') => (Panic p', w'')
      end
  end.

Definition log (lvl : Level) (err : option error) (msg : string) : M unit :=
  emit (Logged lvl err msg).

(** ** The package's functions *)

(** The management statement [ListDatabases] issues. *)
Definition show_databases : string := ".show databases | project DatabaseName".

Section kustoutils.
Context {collaborators : Collaborators}.

(** The calls that leave the package, each recorded before it is answered. *)
Definition call_Mgmt (c : KustoCluster) (db stmt : string)
  : M (RowIterator + error) :=
  emit (MgmtCalled db stmt) ;; mret (Mgmt (Client c) db stmt).

Definition call_PerformQuery (url cluster label : string)
  : M (list string * option error) :=
  emit (WebhookCalled url cluster label) ;; mret (PerformQuery url cluster label).

Definition call_StoreKQLSchemaToFile (kql : string) : M (string * option error) :=
  emit (KQLStored kql) ;; mret (StoreKQLSchemaToFile kql).

Definition call_wrapper_CreateExecConfiguration (c : KustoCluster)
    (uri : string) (dbs : list string) (kqlFile : string) (failIfDataLoss : bool)
  : M (string * option error) :=
  emit (WrapperCalled uri dbs kqlFile failIfDataLoss) ;;
  mret (wrapper_CreateExecConfiguration (wrapper c) uri dbs kqlFile failIfDataLoss).

Definition call_RunDeltaKusto (jobFile : string) : M (option error) :=
  emit (DeltaKustoRun jobFile) ;; mret (RunDeltaKusto jobFile).

(** [RowIterator.DoOnRowOrError(f)]: [f] on every row or inline error, in
    order; the first error [f] returns ends the loop and is returned; at the
    end of the rows the terminal error is returned, nil on [io.EOF]. The
    variables the closure [f] captures are the state [s]. *)
Fixpoint DoOnRowOrError_loop {S : Type} (items : list RowOrError)
    (final : option error) (f : RowOrError → S → M (S * option error)) (s : S)
  : M (S * option error) :=
  match items with
  | [] => mret (s, final)
  | item :: items' =>
      '(s', err) ← f item s;
      match err with
      | Some e => mret (s', Some e)
      | None => DoOnRowOrError_loop items' final f s'
      end
  end.

Definition DoOnRowOrError {S : Type} (iter : RowIterator)
    (f : RowOrError → S → M (S * option error)) (s : S) : M (S * option error) :=
  DoOnRowOrError_loop (pending iter) (terminal iter) f s.

(** The closure [ListDatabases] passes to [DoOnRowOrError]; it captures
    [nameFilter] and appends to [dbs]. *)
Definition ListDatabases_onRow (nameFilter : Regexp) (item : RowOrError)
    (dbs : list string) : M (list string * option error) :=
  match item with
  | IsRow row =>
      dbName ← lift (index (Values row) 0);
      if MatchString nameFilter dbName
      then mret (dbs ++ [dbName], None)
      else mret (dbs, None)
  | IsInlineError inlineError =>
      log ErrorLevel None ("got inline error: " +:+ inlineError) ;;
      mret (dbs, None)
  end.

Definition ListDatabases (c : KustoCluster) (expression : string)
  : M (list string * option error) :=
  match Compile expression with
  | inr err =>
      log ErrorLevel (Some err)
        ("parameter proveded is not a valid regexp: " +:+ expression) ;;
      mret ([], Some err)
  | inl nameFilter =>
      let dbs : list string := [] in
      r ← call_Mgmt c "" show_databases;
      match r with
      | inr err =>
          log ErrorLevel (Some err) "Failed to query mgmt api" ;;
          mret ([], Some err)
      | inl iter =>
          defer (emit IterStopped) (
            '(dbs, err) ← DoOnRowOrError iter (ListDatabases_onRow nameFilter) dbs;
            match err with
            | Some e =>
                log ErrorLevel (Some e) "failed to iterate results" ;;
                mret ([], Some e)
            | None => mret (dbs, None)
            end)
      end
  end.

Definition AquireTargets (c : KustoCluster) (filter : TargetFilter)
  : M (ClusterTargets * option error) :=
  let targets := {| DBs := [] |} in
  '(dbs, err) ←
    (if decide (DB filter ≠ "") then
       ListDatabases c (DB filter)
     else if decide (0 < length (DBS filter)) then
       mret (DBS filter, None)
     else if decide (Webhook filter ≠ "") then
       cluster ← lift (ClusterNameFromURI (URI c));
       call_PerformQuery (Webhook filter) cluster (Label filter)
     else
       log InfoLevel None "Missing db filter - taking all dbs in the cluster" ;;
       ListDatabases c "");
  match err with
  | Some e =>
      log ErrorLevel (Some e) "failed retriving list of dbs from cluster" ;;
      mret (targets, Some e)
  | None => mret ({| DBs := dbs |}, None)
  end.

Definition Execute (c : KustoCluster) (targets : ClusterTargets)
    (config : ExecutionConfiguration) : M (ClusterTargets * option error) :=
  let done := {| DBs := [] |} in
  err ← call_RunDeltaKusto (JobFile config);
  mret (done, err).

(** [cfgMap] is a pointer: [None] is nil, and reading [cfgMap.Data] through
    it panics. *)
Definition CreateExecConfiguration (c : KustoCluster) (targets : ClusterTargets)
    (cfgMap : option ConfigMap) (failIfDataLoss : bool)
  : M (ExecutionConfiguration * option error) :=
  let config := {| KQLFile := ""; JobFile := "" |} in
  match cfgMap with
  | None => lift (Panic NilDereference)
  | Some cm =>
      match Data cm !! "kql" with
      | None => mret (config, Some "no kql found in configmap")
      | Some kql =>
          '(kqlFile, err) ← call_StoreKQLSchemaToFile kql;
          match err with
          | Some e =>
              log ErrorLevel (Some e) "failed downloading kql to file" ;;
              mret (config, Some e)
          | None =>
              '(deltaCfgFile, err) ←
                call_wrapper_CreateExecConfiguration c (URI c) (DBs targets)
                  kqlFile failIfDataLoss;
              match err with
              | Some e =>
                  log ErrorLevel (Some e)
                    "failed generating delta kusto configuration file" ;;
                  mret (config, Some e)
              | None =>
                  mret ({| KQLFile := kqlFile; JobFile := deltaCfgFile |}, None)
              end
          end
      end
  end.

End kustoutils.

(** ** Patterns without metacharacters

    The characters [regexp.QuoteMeta] escapes. *)
Definition metachars : list ascii :=
  ["\"; "."; "+"; "*"; "?"; "("; ")"; "|"; "["; "]"; "{"; "}"; "^"; "$"]%char.

Definition plain_char (c : ascii) : bool :=
  bool_decide (Ascii.nat_of_ascii c < 128) && bool_decide (c ∉ metachars).

(** An ASCII string with no regular-expression metacharacter. *)
Fixpoint plain (s : string) : bool :=
  match s with
  | EmptyString => true
  | String c s' => plain_char c && plain s'
  end.

(** ** A fragment of [regexp]

    An implementation of the [RegexpPkg] interface for the part of the RE2
    syntax made of ASCII literals, groups [( )], alternation [|] and the
    repetitions [*], [+], [?] (each with an optional non-greedy [?], which
    does not change whether a string matches). On this fragment, below the
    package's limits on nesting depth and size, it follows [regexp/syntax]'s
    parser, its error messages included; a pattern that uses anything else
    is answered with [outside_fragment], which is where it departs from Go.
    It serves to run the package on concrete inputs. *)

Module re2.

Inductive regex : Type :=
| NoMatch
| EmptyMatch
| Literal (c : ascii)
| Concat (r1 r2 : regex)
| Alternate (r1 r2 : regex)
| Star (r : regex).

Fixpoint nullable (r : regex) : bool :=
  match r with
  | NoMatch => false
  | EmptyMatch => true
  | Literal _ => false
  | Concat r1 r2 => nullable r1 && nullable r2
  | Alternate r1 r2 => nullable r1 || nullable r2
  | Star _ => true
  end.

(** The derivative of [r] by the byte [c]. *)
Fixpoint deriv (c : ascii) (r : regex) : regex :=
  match r with
  | NoMatch => NoMatch
  | EmptyMatch => NoMatch
  | Literal c' => if decide (c = c') then EmptyMatch else NoMatch
  | Concat r1 r2 =>
      if nullable r1
      then Alternate (Concat (deriv c r1) r2) (deriv c r2)
      else Concat (deriv c r1) r2
  | Alternate r1 r2 => Alternate (deriv c r1) (deriv c r2)
  | Star r1 => Concat (deriv c r1) (Star r1)
  end.

(** Some prefix of [s] is in the language of [r]. *)
Fixpoint match_prefix (r : regex) (s : string) : bool :=
  nullable r ||
  match s with
  | EmptyString => false
  | String c s' => match_prefix (deriv c r) s'
  end.

(** [MatchString]: [s] contains a match of [r], starting anywhere. *)
Fixpoint search (r : regex) (s : string) : bool :=
  match_prefix r s ||
  match s with
  | EmptyString => false
  | String _ s' => search r s'
  end.

(** One open group of the parser: the alternatives already closed by a
    [|] and the items of the current one, both newest first. *)
Record frame : Type := { alts : list regex; cur : list regex }.

Definition concat_of (items : list regex) : regex := foldr Concat EmptyMatch items.
Definition alternate_of (items : list regex) : regex := foldr Alternate NoMatch items.

Definition close_frame (f : frame) : regex :=
  alternate_of (rev (concat_of (rev (cur f)) :: alts f)).

Definition syntax_error (code expr : string) : error :=
  "error parsing regexp: " +:+ code +:+ ": `" +:+ expr +:+ "`".

Definition outside_fragment : error := "pattern outside the modelled fragment".

Definition repeat_of (op : ascii) (r : regex) : regex :=
  if decide (op = "*"%char) then Star r
  else if decide (op = "+"%char) then Concat r (Star r)
  else Alternate r EmptyMatch.

(** A repetition operator [opText] met with [top] open: it applies to the
    last item, and may not follow another repetition. *)
Definition parse_repeat (op : ascii) (opText lastRepeat : string) (top : frame)
    (k : frame → regex + error) : regex + error :=
  if decide (lastRepeat ≠ "") then
    inr (syntax_error "invalid nested repetition operator" (lastRepeat +:+ opText))
  else
    match cur top with
    | [] => inr (syntax_error "missing argument to repetition operator" opText)
    | r :: items =>
        k {| alts := alts top; cur := repeat_of op r :: items |}
    end.

(** The parser's loop over the rest [t] of the pattern [whole]; [stack]
    holds the enclosing groups, [top] the innermost one, [lastRepeat] the
    text of the repetition operator just read, if any. *)
Fixpoint parse (whole t : string) (stack : list frame) (top : frame)
    (lastRepeat : string) : regex + error :=
  match t with
  | EmptyString =>
      match stack with
      | [] => inl (close_frame top)
      | _ :: _ => inr (syntax_error "missing closing )" whole)
      end
  | String c t' =>
      if decide (c = "("%char) then
        match t' with
        | String "?" _ => inr outside_fragment
        | _ => parse whole t' (top :: stack) {| alts := []; cur := [] |} ""
        end
      else if decide (c = ")"%char) then
        match stack with
        | [] => inr (syntax_error "unexpected )" whole)
        | parent :: stack' =>
            parse whole t' stack'
              {| alts := alts parent; cur := close_frame top :: cur parent |} ""
        end
      else if decide (c = "|"%char) then
        parse whole t' stack
          {| alts := concat_of (rev (cur top)) :: alts top; cur := [] |} ""
      else if decide (c ∈ ["*"; "+"; "?"]%char) then
        match t' with
        | String "?" t'' =>
            let opText := String c "?" in
            parse_repeat c opText lastRepeat top
              (λ top', parse whole t'' stack top' opText)
        | _ =>
            let opText := String c "" in
            parse_repeat c opText lastRepeat top
              (λ top', parse whole t' stack top' opText)
        end
      else if plain_char c then
        parse whole t' stack {| alts := alts top; cur := Literal c :: cur top |} ""
      else inr outside_fragment
  end.

Definition compile (expr : string) : regex + error :=
  parse expr expr [] {| alts := []; cur := [] |} "".

(** The items the parser collects while it reads plain characters. *)
Fixpoint literal_items (s : string) : list regex :=
  match s with
  | EmptyString => []
  | String c s' => Literal c :: literal_items s'
  end.

End re2.

Definition re2_fragment : RegexpPkg :=
  {| Regexp := re2.regex; Compile := re2.compile; MatchString := re2.search |}.

(** ** The vocabulary of the specification *)

(** What [Split] puts first: [s] up to the first separator. *)
Definition up_to (sep s : string) : string :=
  match strings.Index s sep with
  | None => s
  | Some m => strings.take m s
  end.

(** The database names a row stream carries: the first column of each row. *)
Definition DatabaseNames (items : list RowOrError) : list string :=
  omap (λ item, match item with
                | IsRow row => head (Values row)
                | IsInlineError _ => None
                end) items.

(** Every row has the column the callback reads. *)
Definition rows_wellformed (items : list RowOrError) : Prop :=
  Forall (λ item, match item with
                  | IsRow row => Values row ≠ []
                  | IsInlineError _ => True
                  end) items.

(** The log lines the inline errors of a stream leave. *)
Definition inline_logs (items : list RowOrError) : list Event :=
  omap (λ item, match item with
                | IsRow _ => None
                | IsInlineError e =>
                    Some (Logged ErrorLevel None ("got inline error: " +:+ e))
                end) items.

(** The number of management queries a trace holds. *)
Definition is_mgmt_call (e : Event) : bool :=
  match e with
  | MgmtCalled _ _ => true
  | _ => false
  end.

Definition mgmt_calls (w : World) : nat := length (filter is_mgmt_call w).

(** The four strategies of target resolution, and the order in which the
    specification tries them: the first populated field wins. *)
Inductive Strategy : Type :=
| BySingleDB (pattern : string)
| ByExplicitList (dbs : list string)
| ByWebhook (url label : string)
| ByAllDatabases.

Definition precedence (filter : TargetFilter) : Strategy :=
  if decide (DB filter = "") then
    if decide (DBS filter = []) then
      if decide (Webhook filter = "") then ByAllDatabases
      else ByWebhook (Webhook filter) (Label filter)
    else ByExplicitList (DBS filter)
  else BySingleDB (DB filter).

(** The documented laws of [regexp] the claims rest on: the empty pattern
    compiles and matches every string; a compiled pattern of plain ASCII
    characters matches the strings that contain it. *)
Definition empty_pattern_law (R : RegexpPkg) : Prop :=
  ∃ re, Compile "" = inl re ∧ ∀ s, MatchString re s = true.

Definition literal_pattern_law (R : RegexpPkg) : Prop :=
  ∀ S re, plain S = true → Compile S = inl re →
    ∀ d, MatchString re d = strings.Contains d S.

Section vocabulary.
Context {collaborators : Collaborators}.

Definition run_strategy (c : KustoCluster) (s : Strategy)
  : M (list string * option error) :=
  match s with
  | BySingleDB pattern => ListDatabases c pattern
  | ByExplicitList dbs => mret (dbs, None)
  | ByWebhook url label =>
      cluster ← lift (ClusterNameFromURI (URI c));
      call_PerformQuery url cluster label
  | ByAllDatabases =>
      log InfoLevel None "Missing db filter - taking all dbs in the cluster" ;;
      ListDatabases c ""
  end.

(** [resolve] hands on what [strategy] yields: its list as the targets, or
    its error with no target at all, or its panic. *)
Definition resolves_via (strategy : M (list string * option error))
    (resolve : M (ClusterTargets * option error)) : Prop :=
  ∀ w,
    match strategy w with
    | (Ret (dbs, None), w') => resolve w = (Ret ({| DBs := dbs |}, None), w')
    | (Ret (_, Some e), w') =>
        resolve w =
          (Ret ({| DBs := [] |}, Some e),
           w' ++ [Logged ErrorLevel (Some e) "failed retriving list of dbs from cluster"])
    | (Panic p, w') => resolve w = (Panic p, w')
    end.

(** The list the chosen strategy draws its names from. *)
Definition strategy_source (c : KustoCluster) (filter : TargetFilter)
  : list string :=
  match precedence filter with
  | BySingleDB _ | ByAllDatabases =>
      match Mgmt (Client c) "" show_databases with
      | inl iter => DatabaseNames (pending iter)
      | inr _ => []
      end
  | ByExplicitList dbs => dbs
  | ByWebhook url label =>
      match ClusterNameFromURI (URI c) with
      | Ret cluster => (PerformQuery url cluster label).1
      | Panic _ => []
      end
  end.

(** A step of building the execution configuration fails: no [kql] entry,
    the schema file is not stored, or the generator fails. *)
Definition build_step_fails (c : KustoCluster) (targets : ClusterTargets)
    (cm : ConfigMap) (failIfDataLoss : bool) : Prop :=
  match Data cm !! "kql" with
  | None => True
  | Some kql =>
      match StoreKQLSchemaToFile kql with
      | (_, Some _) => True
      | (kqlFile, None) =>
          is_Some (wrapper_CreateExecConfiguration (wrapper c) (URI c)
                     (DBs targets) kqlFile failIfDataLoss).2
      end
  end.

End vocabulary.

(** ** Concrete collaborators, to run the package on *)

Definition iterator_of (names : list string) (final : option error) : RowIterator :=
  {| pending := (λ d, IsRow {| Values := [d] |}) <$> names; terminal := final |}.

Definition wrapper_answering (answer : string * option error) : Wrapper :=
  {| wrapper_CreateExecConfiguration := λ _ _ _ _, answer |}.

Definition cluster_answering (uri : string) (answer : RowIterator + error)
    (generated : string * option error) : KustoCluster :=
  {| URI := uri;
     Databases := [];
     Client := {| Mgmt := λ _ _, answer |};
     wrapper := wrapper_answering generated |}.

Definition collaborators_answering (lookup : list string * option error)
    (stored : string * option error) (applied : option error) : Collaborators :=
  {| regexp_pkg := re2_fragment;
     PerformQuery := λ _ _ _, lookup;
     StoreKQLSchemaToFile := λ _, stored;
     RunDeltaKusto := λ _, applied |}.

Definition fabrikam_uri : string := "https://fabrikam.kusto.windows.net".

(** A cluster with four databases, and collaborators that all succeed. *)
Definition fabrikam : KustoCluster :=
  cluster_answering fabrikam_uri
    (inl (iterator_of ["db"; "db1"; "mydb2"; "other"] None))
    ("/tmp/delta-kusto.yaml", None).

Definition healthy : Collaborators :=
  collaborators_answering (["db1"; "db2"], None) ("/tmp/schema.kql", None) None.

(** The same cluster when the row stream breaks off after two rows. *)
Definition fabrikam_broken : KustoCluster :=
  cluster_answering fabrikam_uri
    (inl (iterator_of ["db"; "db1"] (Some "connection reset by peer")))
    ("/tmp/delta-kusto.yaml", None).

(** The same cluster when the job-file generator fails. *)
Definition fabrikam_no_generator : KustoCluster :=
  cluster_answering fabrikam_uri
    (inl (iterator_of ["db"; "db1"; "mydb2"; "other"] None))
    ("", Some "delta-kusto exited with status 1").

Definition no_storage : Collaborators :=
  collaborators_answering (["db1"; "db2"], None) ("", Some "no space left on device") None.

Definition filter_single (pattern : string) : TargetFilter :=
  {| DB := pattern; DBS := []; Webhook := ""; Label := "" |}.

Definition filter_list (dbs : list string) : TargetFilter :=
  {| DB := ""; DBS := dbs; Webhook := ""; Label := "" |}.

Definition filter_webhook (url label : string) : TargetFilter :=
  {| DB := ""; DBS := []; Webhook := url; Label := label |}.

Definition cm_without_kql : ConfigMap := {| Data := ∅ |}.

Definition cm_with_kql : ConfigMap :=
  {| Data := {[ "kql" := ".create table T (x: int)" ]} |}.

(** ** Further vocabulary: counting what a trace holds *)

Definition is_webhook_call (e : Event) : bool :=
  match e with
  | WebhookCalled _ _ _ => true
  | _ => false
  end.

Definition is_iter_stop (e : Event) : bool :=
  match e with
  | IterStopped => true
  | _ => false
  end.

Definition is_log (e : Event) : bool :=
  match e with
  | Logged _ _ _ => true
  | _ => false
  end.

Definition webhook_calls (w : World) : nat := length (filter is_webhook_call w).

Definition iter_stops (w : World) : nat := length (filter is_iter_stop w).





Definition fabrikam_ragged : KustoCluster :=
  {| URI := fabrikam_uri;
     Databases := [];
     Client := {| Mgmt := λ _ _,
       inl {| pending := [IsRow {| Values := ["db"] |};
                          IsRow {| Values := [] |};
                          IsRow {| Values := ["db1"] |}];
              terminal := None |} |};
     wrapper := wrapper_answering ("/tmp/delta-kusto.yaml", None) |}.


Definition fabrikam_refused : KustoCluster :=
  cluster_answering fabrikam_uri (inr "403 Forbidden") ("/tmp/delta-kusto.yaml", None).

Definition fabrikam_no_scheme : KustoCluster :=
  cluster_answering "fabrikam.kusto.windows.net"
    (inl (iterator_of ["db"; "db1"] None)) ("/tmp/delta-kusto.yaml", None).

(** Collaborators whose webhook answers with names beside an error, and
    collaborators whose apply tool fails. *)
Definition webhook_down : Collaborators :=
  collaborators_answering (["stale"], Some "webhook: 503 Service Unavailable")
    ("/tmp/schema.kql", None) None.

Definition apply_fails : Collaborators :=
  collaborators_answering (["db1"; "db2"], None) ("/tmp/schema.kql", None)
    (Some "delta-kusto exited with status 1").

(** * Properties *)

(** ** [strings] *)

Lemma Index_None_Count (fuel : nat) (s sep : string) :
  strings.Index s sep = None → strings.Count_loop fuel s sep = 0.
Proof. intros H. destruct fuel; simpl; [done | by rewrite H]. Qed.

Lemma Split_no_separator (s : string) (c : ascii) (sep : string) :
  strings.Index s (String c sep) = None → strings.Split s (String c sep) = [s].
Proof.
  intros H. unfold strings.Split, strings.Count.
  rewrite (Index_None_Count _ _ _ H).
  by replace (Nat.min (0 + 1) (String.length s + 1) - 1) with 0 by lia.
Qed.

Lemma length_drop (n : nat) (s : string) :
  String.length (strings.drop n s) = String.length s - n.
Proof.
  revert s. induction n as [| n IH]; intros s; [simpl; lia |].
  destruct s as [| c s]; [done | apply IH].
Qed.

Lemma Index_Some_nonempty (s : string) (c : ascii) (sep : string) (m : nat) :
  strings.Index s (String c sep) = Some m → 0 < String.length s.
Proof. destruct s; [discriminate | simpl; lia]. Qed.

Lemma Index_Some_Count (fuel : nat) (s sep : string) (m : nat) :
  strings.Index s sep = Some m →
  strings.Count_loop (S fuel) s sep =
    S (strings.Count_loop fuel (strings.drop (m + String.length sep) s) sep).
Proof. intros H. simpl. by rewrite H. Qed.

Lemma Split_head (s : string) (c : ascii) (sep : string) :
  strings.Split s (String c sep) !! 0 = Some (up_to (String c sep) s).
Proof.
  unfold up_to.
  destruct (strings.Index s (String c sep)) as [m |] eqn:Hidx.
  - pose proof (Index_Some_nonempty _ _ _ _ Hidx) as Hlen.
    unfold strings.Split, strings.Count.
    destruct (String.length s) as [| len] eqn:Hl; [lia |].
    rewrite (Index_Some_Count _ _ _ _ Hidx).
    match goal with
    | |- strings.genSplit_loop ?n _ _ !! 0 = _ =>
        destruct n as [| n'] eqn:Hn; [lia |]
    end.
    simpl. by rewrite Hidx.
  - by rewrite Split_no_separator.
Qed.

(** What [Split] puts second, when there is a separator: the rest, up to
    the next separator. *)
Lemma Split_second (s : string) (c : ascii) (sep : string) (m : nat) :
  strings.Index s (String c sep) = Some m →
  strings.Split s (String c sep) !! 1 =
    Some (up_to (String c sep)
            (strings.drop (m + String.length (String c sep)) s)).
Proof.
  intros Hidx. unfold up_to.
  pose proof (Index_Some_nonempty _ _ _ _ Hidx) as Hlen.
  unfold strings.Split, strings.Count.
  destruct (String.length s) as [| len] eqn:Hl; [lia |].
  rewrite (Index_Some_Count _ _ _ _ Hidx).
  set (s' := strings.drop (m + String.length (String c sep)) s).
  destruct (strings.Index s' (String c sep)) as [m' |] eqn:Hidx'.
  - pose proof (Index_Some_nonempty _ _ _ _ Hidx') as Hlen'.
    assert (String.length s' ≤ len) as Hle.
    { subst s'. rewrite length_drop, Hl. simpl. lia. }
    destruct len as [| len]; [lia |].
    rewrite (Index_Some_Count _ _ _ _ Hidx').
    match goal with
    | |- strings.genSplit_loop ?n _ _ !! 1 = _ =>
        destruct n as [| [| n']] eqn:Hn; [lia | lia |]
    end.
    cbn [strings.genSplit_loop]. rewrite Hidx. fold s'. by rewrite Hidx'.
  - rewrite (Index_None_Count _ _ _ Hidx').
    match goal with
    | |- strings.genSplit_loop ?n _ _ !! 1 = _ =>
        replace n with 1 by lia
    end.
    cbn [strings.genSplit_loop]. by rewrite Hidx.
Qed.


Lemma Index_None_inv (c : ascii) (s sep : string) :
  strings.Index (String c s) sep = None →
  strings.HasPrefix (String c s) sep = false ∧ strings.Index s sep = None.
Proof.
  cbn [strings.Index]. destruct (strings.HasPrefix _ _); [discriminate |].
  destruct (strings.Index s sep); [discriminate | done].
Qed.

(** A separator without the byte [c] that starts [name ++ c ++ rest]
    starts [name]. *)
Lemma prefix_before (c : ascii) (sep name rest : string) :
  strings.Index sep (String c "") = None →
  String.prefix sep (name +:+ String c rest) = true →
  String.prefix sep name = true.
Proof.
  revert name. induction sep as [| a sep IH]; intros name Hc Hpre; [by destruct name |].
  apply Index_None_inv in Hc as [Ha Hsep].
  destruct name as [| b name]; simpl in *.
  - destruct (Ascii.ascii_dec a c) as [-> | _]; [| discriminate Hpre].
    unfold strings.HasPrefix in Ha. simpl in Ha.
    destruct (Ascii.ascii_dec c c); [by destruct sep | done].
  - destruct (Ascii.ascii_dec a b); [| discriminate Hpre]. by apply IH.
Qed.

Lemma Index_past_name (c : ascii) (sep name rest : string) (m : nat) :
  strings.Index sep (String c "") = None →
  strings.Index name sep = None →
  strings.Index (name +:+ String c rest) sep = Some m →
  String.length name < m.
Proof.
  intros Hc. revert m. induction name as [| b name IH]; intros m Hname Hidx.
  - change ("" +:+ String c rest) with (String c rest) in Hidx.
    cbn [strings.Index] in Hidx, Hname.
    destruct (strings.HasPrefix (String c rest) sep) eqn:Hpre.
    + apply (prefix_before c sep "" rest Hc) in Hpre.
      unfold strings.HasPrefix in Hname. by rewrite Hpre in Hname.
    + destruct (strings.Index rest sep); [| discriminate Hidx].
      injection Hidx as <-. simpl. lia.
  - apply Index_None_inv in Hname as [Hpre Hname].
    change (String b name +:+ String c rest)
      with (String b (name +:+ String c rest)) in Hidx.
    cbn [strings.Index] in Hidx.
    destruct (strings.HasPrefix (String b (name +:+ String c rest)) sep) eqn:Hpre'.
    + apply (prefix_before c sep (String b name) rest Hc) in Hpre'.
      unfold strings.HasPrefix in Hpre. by rewrite Hpre' in Hpre.
    + destruct (strings.Index (name +:+ String c rest) sep) as [m' |] eqn:Hm';
        [| discriminate Hidx].
      injection Hidx as <-. specialize (IH _ Hname eq_refl). simpl. lia.
Qed.

Lemma HasPrefix_byte (c b : ascii) (s : string) :
  strings.HasPrefix (String b s) (String c "") = bool_decide (c = b).
Proof.
  unfold strings.HasPrefix. simpl.
  destruct (Ascii.ascii_dec c b) as [-> | Hne].
  - rewrite bool_decide_true by done. by destruct s.
  - by rewrite bool_decide_false.
Qed.

Lemma Index_at_name (c : ascii) (name rest : string) :
  strings.Index name (String c "") = None →
  strings.Index (name +:+ String c rest) (String c "") = Some (String.length name).
Proof.
  induction name as [| b name IH]; intros Hname.
  - change ("" +:+ String c rest) with (String c rest).
    cbn [strings.Index]. by rewrite HasPrefix_byte, bool_decide_true.
  - apply Index_None_inv in Hname as [Hpre Hname].
    change (String b name +:+ String c rest)
      with (String b (name +:+ String c rest)).
    cbn [strings.Index]. rewrite HasPrefix_byte in *.
    rewrite Hpre, IH by done. done.
Qed.

Lemma take_name (name rest : string) :
  strings.take (String.length name) (name +:+ rest) = name.
Proof.
  induction name as [| b name IH]; simpl; [by destruct rest | by rewrite IH].
Qed.

Lemma take_past_name (c : ascii) (name rest : string) (m : nat) :
  String.length name < m →
  strings.take m (name +:+ String c rest) =
    name +:+ String c (strings.take (m - String.length name - 1) rest).
Proof.
  revert m. induction name as [| b name IH]; intros m Hm.
  - destruct m as [| m]; simpl in *; [lia |]. by rewrite Nat.sub_0_r.
  - destruct m as [| m]; simpl in *; [lia |]. rewrite IH by lia. done.
Qed.

(** Cutting at the first [c] gives back a [name] that has no [c]. *)
Lemma up_to_name (c : ascii) (name rest : string) :
  strings.Index name (String c "") = None →
  up_to (String c "") (name +:+ String c rest) = name.
Proof.
  intros Hname. unfold up_to. rewrite Index_at_name by done. apply take_name.
Qed.

Lemma HasPrefix_app (sep t : string) : strings.HasPrefix (sep +:+ t) sep = true.
Proof.
  unfold strings.HasPrefix. induction sep as [| a sep IH]; simpl.
  - by destruct t.
  - by destruct (Ascii.ascii_dec a a).
Qed.

Lemma Index_app (c : ascii) (sep t : string) :
  strings.Index (String c sep +:+ t) (String c sep) = Some 0.
Proof.
  change (String c sep +:+ t) with (String c (sep +:+ t)).
  cbn [strings.Index].
  change (String c (sep +:+ t)) with (String c sep +:+ t).
  by rewrite HasPrefix_app.
Qed.

(** ** [ClusterNameFromURI] *)

Example ClusterNameFromURI_fabrikam :
  ClusterNameFromURI "https://fabrikam.kusto.windows.net" = Ret "fabrikam".
Proof. reflexivity. Qed.

Example ClusterNameFromURI_inner_scheme :
  ClusterNameFromURI "xhttps://a.b" = Ret "a".
Proof. reflexivity. Qed.

(** C6, as stated, fails: for a string that lacks the [https://] prefix the
    claim promises an extraction that does not crash. On
    ["fabrikam.kusto.windows.net"] the split has one element and indexing
    its second panics. *)
Lemma C6_counterexample :
  strings.HasPrefix "fabrikam.kusto.windows.net" "https://" = false ∧
  ClusterNameFromURI "fabrikam.kusto.windows.net" = Panic (IndexOutOfRange 1 1) ∧
  ¬ (∀ uri, strings.HasPrefix uri "https://" = false →
       ∃ name, ClusterNameFromURI uri = Ret name).
Proof.
  split_and!; [done | done |].
  intros H. destruct (H "fabrikam.kusto.windows.net" eq_refl) as [name Hname].
  discriminate Hname.
Qed.

(** On a well-formed URI the name is the first label behind the scheme. *)
Lemma ClusterNameFromURI_wellformed (name rest : string) :
  strings.Index name "." = None →
  strings.Index name "https://" = None →
  ClusterNameFromURI ("https://" +:+ (name +:+ ("." +:+ rest))) = Ret name.
Proof.
  intros Hdot Hscheme. unfold ClusterNameFromURI, index.
  rewrite (Split_second _ _ _ 0 (Index_app _ _ _)).
  change (strings.drop _ _) with (name +:+ String "." rest).
  cbn [rbind]. rewrite Split_head.
  assert (∃ rest', up_to "https://" (name +:+ String "." rest)
                   = name +:+ String "." rest') as [rest' ->].
  { unfold up_to.
    destruct (strings.Index (name +:+ String "." rest) "https://") as [m |] eqn:Hm.
    - eexists. apply take_past_name.
      by eapply (Index_past_name "." "https://" name rest m).
    - by eexists. }
  by rewrite up_to_name.
Qed.

(** C6, amended: [ClusterNameFromURI] yields [fabrikam] for
    [https://fabrikam.kusto.windows.net], and [name] for every
    [https://name.rest] whose [name] holds neither a dot nor [https://];
    on every string in which [https://] does not occur it panics with an
    index out of range: no name is returned. *)
Theorem C6_ClusterNameFromURI :
  ClusterNameFromURI "https://fabrikam.kusto.windows.net" = Ret "fabrikam" ∧
  (∀ name rest,
     strings.Index name "." = None →
     strings.Index name "https://" = None →
     ClusterNameFromURI ("https://" +:+ (name +:+ ("." +:+ rest))) = Ret name) ∧
  (∀ uri, strings.Index uri "https://" = None →
     ClusterNameFromURI uri = Panic (IndexOutOfRange 1 1)).
Proof.
  split_and!; [reflexivity | apply ClusterNameFromURI_wellformed |].
  intros uri H. unfold ClusterNameFromURI.
  by rewrite (Split_no_separator _ _ _ H).
Qed.

Lemma C6_ClusterNameFromURI_witness :
  (strings.Index "contoso" "." = None ∧
   strings.Index "contoso" "https://" = None ∧
   ClusterNameFromURI "https://contoso.westeurope.kusto.windows.net" = Ret "contoso") ∧
  (strings.Index "fabrikam.kusto.windows.net" "https://" = None ∧
   ClusterNameFromURI "fabrikam.kusto.windows.net" = Panic (IndexOutOfRange 1 1)).
Proof.
  split; (split; [reflexivity |]).
  - split; [reflexivity |].
    apply (proj1 (proj2 C6_ClusterNameFromURI)
             "contoso" "westeurope.kusto.windows.net"); reflexivity.
  - apply (proj2 (proj2 C6_ClusterNameFromURI)). reflexivity.
Defined.

(** ** [ListDatabases] *)

Section ListDatabases_facts.
Context {collaborators : Collaborators}.

(** The loop on a well-formed stream: the matching names are appended in
    the order of the rows, inline errors only leave a log line, and the
    terminal error comes out at the end. *)
Lemma DoOnRowOrError_loop_onRow (re : Regexp) (items : list RowOrError)
    (final : option error) (acc : list string) (w : World) :
  rows_wellformed items →
  DoOnRowOrError_loop items final (ListDatabases_onRow re) acc w =
    (Ret (acc ++ filter (λ d, MatchString re d) (DatabaseNames items), final),
     w ++ inline_logs items).
Proof.
  intros Hwf. revert acc w.
  induction Hwf as [| item items Hitem _ IH]; intros acc w.
  - simpl. by rewrite !app_nil_r.
  - destruct item as [[vals] | e]; simpl in Hitem.
    + destruct vals as [| v vals]; [done |].
      cbn -[filter]. unfold mbind, M_bind, lift, index; cbn -[filter].
      rewrite filter_cons. destruct (MatchString re v) eqn:Hm; cbn -[filter].
      * rewrite IH. rewrite decide_True by done. by rewrite <- app_assoc.
      * rewrite IH. by rewrite decide_False by (by intros []).
    + cbn -[filter]. unfold mbind, M_bind, log, emit; cbn -[filter].
      rewrite IH. by rewrite <- app_assoc.
Qed.

(** The loop returns only on a well-formed stream: a row without columns
    makes the callback panic. *)
Lemma DoOnRowOrError_loop_returns (re : Regexp) (items : list RowOrError)
    (final : option error) (acc : list string) (w : World) r w' :
  DoOnRowOrError_loop items final (ListDatabases_onRow re) acc w = (Ret r, w') →
  rows_wellformed items.
Proof.
  revert acc w. induction items as [| item items IH]; intros acc w H.
  - constructor.
  - destruct item as [[vals] | e].
    + destruct vals as [| v vals]; [discriminate H |].
      constructor; [done |].
      cbn in H. unfold mbind, M_bind, lift, index in H; cbn in H.
      destruct (MatchString re v); cbn in H; by eapply IH.
    + constructor; [done |].
      cbn in H. unfold mbind, M_bind, log, emit in H; cbn in H. by eapply IH.
Qed.

Lemma ListDatabases_invalid (c : KustoCluster) (P : string) (e : error) (w : World) :
  Compile P = inr e →
  ListDatabases c P w =
    (Ret ([], Some e),
     w ++ [Logged ErrorLevel (Some e)
             ("parameter proveded is not a valid regexp: " +:+ P)]).
Proof. intros H. unfold ListDatabases. by rewrite H. Qed.

Lemma ListDatabases_query_failed (c : KustoCluster) (P : string) (re : Regexp)
    (e : error) (w : World) :
  Compile P = inl re →
  Mgmt (Client c) "" show_databases = inr e →
  ListDatabases c P w =
    (Ret ([], Some e),
     w ++ [MgmtCalled "" show_databases;
           Logged ErrorLevel (Some e) "Failed to query mgmt api"]).
Proof.
  intros Hre Hq. unfold ListDatabases. rewrite Hre.
  unfold call_Mgmt, mbind, M_bind, log, emit; cbn. rewrite Hq. cbn.
  by rewrite <- app_assoc.
Qed.

Lemma ListDatabases_rows (c : KustoCluster) (P : string) (re : Regexp)
    (iter : RowIterator) (w : World) :
  Compile P = inl re →
  Mgmt (Client c) "" show_databases = inl iter →
  rows_wellformed (pending iter) →
  ListDatabases c P w =
    match terminal iter with
    | None =>
        (Ret (filter (λ d, MatchString re d) (DatabaseNames (pending iter)), None),
         w ++ [MgmtCalled "" show_databases] ++ inline_logs (pending iter)
           ++ [IterStopped])
    | Some e =>
        (Ret ([], Some e),
         w ++ [MgmtCalled "" show_databases] ++ inline_logs (pending iter)
           ++ [Logged ErrorLevel (Some e) "failed to iterate results"; IterStopped])
    end.
Proof.
  intros Hre Hq Hwf. unfold ListDatabases. rewrite Hre.
  unfold call_Mgmt, mbind, M_bind, emit; cbn -[filter]. rewrite Hq.
  unfold defer, DoOnRowOrError, mbind, M_bind.
  rewrite DoOnRowOrError_loop_onRow by done.
  destruct (terminal iter) as [e |]; cbn -[filter];
    unfold log, emit; cbn -[filter]; by rewrite <- ?app_assoc.
Qed.

(** Whenever [ListDatabases] returns behind a successful query, the rows
    were well-formed. *)
Lemma ListDatabases_returns (c : KustoCluster) (P : string) (re : Regexp)
    (iter : RowIterator) (w : World) r w' :
  Compile P = inl re →
  Mgmt (Client c) "" show_databases = inl iter →
  ListDatabases c P w = (Ret r, w') →
  rows_wellformed (pending iter).
Proof.
  intros Hre Hq. unfold ListDatabases. rewrite Hre.
  unfold call_Mgmt, mbind, M_bind, emit; cbn. rewrite Hq.
  unfold defer, DoOnRowOrError, mbind, M_bind.
  destruct (DoOnRowOrError_loop _ _ _ _ _) as [[[dbs err] | p] w1] eqn:Hloop.
  - intros _. eapply DoOnRowOrError_loop_returns, Hloop.
  - cbn. discriminate.
Qed.

End ListDatabases_facts.

Section ListDatabases_claims.
Context {collaborators : Collaborators}.

Lemma mgmt_calls_app (w1 w2 : World) :
  mgmt_calls (w1 ++ w2) = mgmt_calls w1 + mgmt_calls w2.
Proof. unfold mgmt_calls. by rewrite filter_app, length_app. Qed.

Lemma filter_everything {A : Type} (P : A → Prop) `{!∀ x, Decision (P x)}
    (l : list A) :
  (∀ x, P x) → filter P l = l.
Proof.
  intros HP. induction l as [| x l IH]; [done |].
  by rewrite filter_cons, decide_True, IH.
Qed.

(** A successful listing went through every stage. *)
Lemma ListDatabases_success (c : KustoCluster) (P : string) (w : World)
    (dbs : list string) (w' : World) :
  ListDatabases c P w = (Ret (dbs, None), w') →
  ∃ re iter,
    Compile P = inl re ∧
    Mgmt (Client c) "" show_databases = inl iter ∧
    terminal iter = None ∧
    rows_wellformed (pending iter) ∧
    dbs = filter (λ d, MatchString re d) (DatabaseNames (pending iter)).
Proof.
  intros H.
  destruct (Compile P) as [re | e] eqn:Hre.
  2: { rewrite (ListDatabases_invalid _ _ _ _ Hre) in H. discriminate H. }
  destruct (Mgmt (Client c) "" show_databases) as [iter | e] eqn:Hq.
  2: { rewrite (ListDatabases_query_failed _ _ _ _ _ Hre Hq) in H. discriminate H. }
  pose proof (ListDatabases_returns _ _ _ _ _ _ _ Hre Hq H) as Hwf.
  rewrite (ListDatabases_rows _ _ _ _ _ Hre Hq Hwf) in H.
  exists re, iter. destruct (terminal iter); [discriminate H |].
  by injection H as <- _.
Qed.

(** C2: behind a pattern that compiles and a query whose rows end without
    a terminal error, [ListDatabases] returns the names of the rows that the
    pattern matches: as a list, in row order; as a set, exactly the matching
    members of [D]; a permuted row stream gives a permutation of the same
    names; and the empty pattern, which matches every string, gives all of
    [D]. *)
Theorem C2_ListDatabases_filter (c : KustoCluster) (P : string) (re : Regexp)
    (iter : RowIterator) (w : World) :
  Compile P = inl re →
  Mgmt (Client c) "" show_databases = inl iter →
  terminal iter = None →
  rows_wellformed (pending iter) →
  let D := DatabaseNames (pending iter) in
  ∃ dbs w',
    ListDatabases c P w = (Ret (dbs, None), w') ∧
    dbs = filter (λ d, MatchString re d) D ∧
    (∀ d, d ∈ dbs ↔ d ∈ D ∧ MatchString re d = true) ∧
    (∀ c' iter' w0,
       Mgmt (Client c') "" show_databases = inl iter' →
       terminal iter' = None →
       pending iter' ≡ₚ pending iter →
       ∃ dbs' w0', ListDatabases c' P w0 = (Ret (dbs', None), w0') ∧ dbs' ≡ₚ dbs) ∧
    (empty_pattern_law regexp_pkg →
       ∃ w0', ListDatabases c "" w = (Ret (D, None), w0')).
Proof.
  intros Hre Hq Hend Hwf D.
  eexists _, _. split_and!.
  - rewrite (ListDatabases_rows _ _ _ _ _ Hre Hq Hwf), Hend. reflexivity.
  - reflexivity.
  - intros d. rewrite list_elem_of_filter, Is_true_true. tauto.
  - intros c' iter' w0 Hq' Hend' Hperm.
    assert (rows_wellformed (pending iter')) as Hwf'.
    { unfold rows_wellformed. by rewrite Hperm. }
    eexists _, _. split.
    + rewrite (ListDatabases_rows _ _ _ _ _ Hre Hq' Hwf'), Hend'. reflexivity.
    + subst D. unfold DatabaseNames. by rewrite Hperm.
  - intros (re0 & Hre0 & Hall).
    eexists. rewrite (ListDatabases_rows _ _ _ _ _ Hre0 Hq Hwf), Hend.
    do 3 f_equal. apply filter_everything. intros d. by rewrite Hall.
Qed.

(** C3: when the row iteration ends with a terminal error, [ListDatabases]
    returns no name and that error, whatever rows came before it: on a
    stream of well-formed rows it returns exactly that, and it never returns
    anything else. *)
Theorem C3_terminal_error_discards_rows (c : KustoCluster) (P : string)
    (re : Regexp) (iter : RowIterator) (e : error) (w : World) :
  Compile P = inl re →
  Mgmt (Client c) "" show_databases = inl iter →
  terminal iter = Some e →
  (rows_wellformed (pending iter) →
     ∃ w', ListDatabases c P w = (Ret ([], Some e), w')) ∧
  (∀ r w', ListDatabases c P w = (Ret r, w') → r = ([], Some e)).
Proof.
  intros Hre Hq Hend. split.
  - intros Hwf. eexists.
    rewrite (ListDatabases_rows _ _ _ _ _ Hre Hq Hwf), Hend. reflexivity.
  - intros r w' H.
    pose proof (ListDatabases_returns _ _ _ _ _ _ _ Hre Hq H) as Hwf.
    rewrite (ListDatabases_rows _ _ _ _ _ Hre Hq Hwf), Hend in H.
    by injection H as <- _.
Qed.

(** C4: on a pattern that does not compile, [ListDatabases] returns the
    compile error and no name, and the trace only gains the log line: no
    management query is issued. *)
Theorem C4_invalid_pattern_fails_fast (c : KustoCluster) (P : string)
    (e : error) (w : World) :
  Compile P = inr e →
  ∃ w',
    ListDatabases c P w = (Ret ([], Some e), w') ∧
    w' = w ++ [Logged ErrorLevel (Some e)
                 ("parameter proveded is not a valid regexp: " +:+ P)] ∧
    mgmt_calls w' = mgmt_calls w.
Proof.
  intros Hre. eexists. split_and!.
  - by apply ListDatabases_invalid.
  - reflexivity.
  - rewrite mgmt_calls_app. by rewrite Nat.add_0_r.
Qed.

End ListDatabases_claims.

(** ** [AquireTargets] *)

Section AquireTargets_claims.
Context {collaborators : Collaborators}.

Lemma nonempty_length {A : Type} (l : list A) : 0 < length l ↔ l ≠ [].
Proof. destruct l; simpl; split; (done || lia). Qed.

(** The tail of [AquireTargets], behind any strategy. *)
Lemma resolves_via_tail (strategy : M (list string * option error)) :
  resolves_via strategy
    ('(dbs, err) ← strategy;
     match err with
     | Some e =>
         log ErrorLevel (Some e) "failed retriving list of dbs from cluster" ;;
         mret ({| DBs := [] |}, Some e)
     | None => mret ({| DBs := dbs |}, None)
     end).
Proof.
  intros w. unfold mbind, M_bind.
  by destruct (strategy w) as [[[dbs [e |]] | p] w1].
Qed.

(** The code tries the fields in the specification's order and hands on
    what the chosen strategy yields. *)
Lemma AquireTargets_resolves_via (c : KustoCluster) (filter : TargetFilter) :
  resolves_via (run_strategy c (precedence filter)) (AquireTargets c filter).
Proof.
  unfold AquireTargets, precedence.
  repeat case_decide;
    try (exfalso; rewrite ?nonempty_length in *; naive_solver);
    apply resolves_via_tail.
Qed.

(** C1: [AquireTargets] follows exactly one strategy, the first whose field
    is populated in the order singleDB, explicitList, webhook, all
    databases, and its outcome is that strategy's: [ListDatabases] on the
    singleDB string; the explicit list; the webhook called with the
    cluster's short name and the label; [ListDatabases] on the empty
    pattern. With singleDB populated the other fields do not matter, so it
    wins over a populated explicitList. *)
Theorem C1_resolution_precedence (c : KustoCluster) (filter : TargetFilter) :
  resolves_via (run_strategy c (precedence filter)) (AquireTargets c filter) ∧
  (DB filter ≠ "" →
     precedence filter = BySingleDB (DB filter) ∧
     resolves_via (ListDatabases c (DB filter)) (AquireTargets c filter)) ∧
  (DB filter = "" → DBS filter ≠ [] →
     precedence filter = ByExplicitList (DBS filter) ∧
     resolves_via (mret (DBS filter, None)) (AquireTargets c filter)) ∧
  (DB filter = "" → DBS filter = [] → Webhook filter ≠ "" →
     precedence filter = ByWebhook (Webhook filter) (Label filter) ∧
     resolves_via
       (cluster ← lift (ClusterNameFromURI (URI c));
        call_PerformQuery (Webhook filter) cluster (Label filter))
       (AquireTargets c filter)) ∧
  (DB filter = "" → DBS filter = [] → Webhook filter = "" →
     precedence filter = ByAllDatabases ∧
     resolves_via
       (log InfoLevel None "Missing db filter - taking all dbs in the cluster" ;;
        ListDatabases c "")
       (AquireTargets c filter)).
Proof.
  pose proof (AquireTargets_resolves_via c filter) as Hvia.
  unfold precedence in *. split_and!; [done | | | |].
  - intros HDB. rewrite decide_False in * by done. by split.
  - intros HDB HDBS. rewrite decide_True, decide_False in * by done. by split.
  - intros HDB HDBS HW. rewrite !decide_True, decide_False in * by done. by split.
  - intros HDB HDBS HW. rewrite !decide_True in * by done. by split.
Qed.

(** C5: with singleDB empty and explicitList non-empty, [AquireTargets]
    returns the explicit list as it is, without error, and leaves the trace
    as it was: no management query, no webhook call, nothing at all. *)
Theorem C5_explicit_list_verbatim (c : KustoCluster) (filter : TargetFilter)
    (w : World) :
  DB filter = "" →
  DBS filter ≠ [] →
  AquireTargets c filter w = (Ret ({| DBs := DBS filter |}, None), w).
Proof.
  intros HDB HDBS. unfold AquireTargets.
  rewrite decide_False by (intros Hne; by apply Hne).
  by rewrite decide_True by (by rewrite nonempty_length).
Qed.

(** What a successful resolution returns is a sublist of the source of the
    strategy it followed. *)
Lemma AquireTargets_sublist (c : KustoCluster) (filter : TargetFilter)
    (w : World) (targets : ClusterTargets) (w' : World) :
  AquireTargets c filter w = (Ret (targets, None), w') →
  DBs targets `sublist_of` strategy_source c filter.
Proof.
  intros H. pose proof (AquireTargets_resolves_via c filter w) as Hvia.
  unfold strategy_source.
  assert (∀ P w0,
    match ListDatabases c P w0 with
    | (Ret (dbs, None), w1) =>
        AquireTargets c filter w = (Ret ({| DBs := dbs |}, None), w1)
    | (Ret (_, Some e), w1) =>
        AquireTargets c filter w =
          (Ret ({| DBs := [] |}, Some e),
           w1 ++ [Logged ErrorLevel (Some e) "failed retriving list of dbs from cluster"])
    | (Panic p, w1) => AquireTargets c filter w = (Panic p, w1)
    end →
    DBs targets `sublist_of`
      match Mgmt (Client c) "" show_databases with
      | inl iter => DatabaseNames (pending iter)
      | inr _ => []
      end) as Hlist.
  { intros P w0 HP.
    destruct (ListDatabases c P w0) as [[[dbs [e |]] | p] w1] eqn:HLD;
      rewrite H in HP; try discriminate HP.
    injection HP as -> _.
    apply ListDatabases_success in HLD as (re & iter & _ & -> & _ & _ & ->).
    apply sublist_filter. }
  destruct (precedence filter) as [pattern | dbs | url label |];
    unfold run_strategy in Hvia.
  - by eapply Hlist.
  - cbn in Hvia. rewrite H in Hvia. by injection Hvia as ->.
  - unfold mbind, M_bind, lift, call_PerformQuery, emit in Hvia.
    destruct (ClusterNameFromURI (URI c)) as [cluster | p]; cbn in Hvia.
    + destruct (PerformQuery url cluster label) as [dbs [e |]]; cbn in Hvia;
        rewrite H in Hvia; [discriminate Hvia |].
      by injection Hvia as -> _.
    + rewrite H in Hvia. discriminate Hvia.
  - unfold mbind at 1, M_bind at 1, log, emit in Hvia. by eapply Hlist.
Qed.

(** C8, amended: [AquireTargets] does not remove duplicates. The resolved
    list is a sublist of the source of the strategy followed (the rows of
    the cluster, the explicit list, or the webhook's answer), so a name
    occurs in it at most as often as in that source, and the list is free
    of duplicates whenever that source is. *)
Theorem C8_targets_within_source (c : KustoCluster) (filter : TargetFilter)
    (w : World) (targets : ClusterTargets) (w' : World) :
  AquireTargets c filter w = (Ret (targets, None), w') →
  DBs targets `sublist_of` strategy_source c filter ∧
  (NoDup (strategy_source c filter) → NoDup (DBs targets)).
Proof.
  intros H. pose proof (AquireTargets_sublist _ _ _ _ _ H) as Hsub.
  split; [done |]. intros Hnd. by eapply sublist_NoDup.
Qed.

(** C7, amended: a singleDB value of plain ASCII characters selects the
    databases whose name contains it, not only the one that equals it. *)
Theorem C7_single_db_is_substring_match (c : KustoCluster) (filter : TargetFilter)
    (re : Regexp) (iter : RowIterator) (w : World) :
  literal_pattern_law regexp_pkg →
  DB filter ≠ "" →
  plain (DB filter) = true →
  Compile (DB filter) = inl re →
  Mgmt (Client c) "" show_databases = inl iter →
  terminal iter = None →
  rows_wellformed (pending iter) →
  ∃ targets w',
    AquireTargets c filter w = (Ret (targets, None), w') ∧
    DBs targets =
      base.filter (λ d, strings.Contains d (DB filter)) (DatabaseNames (pending iter)).
Proof.
  intros Hlaw HDB Hplain Hre Hq Hend Hwf.
  pose proof (AquireTargets_resolves_via c filter w) as Hvia.
  unfold precedence in Hvia. rewrite decide_False in Hvia by done.
  cbn in Hvia. rewrite (ListDatabases_rows _ _ _ _ _ Hre Hq Hwf), Hend in Hvia.
  eexists _, _. split; [exact Hvia |]. cbn.
  apply list_filter_iff. intros d. by rewrite (Hlaw _ _ Hplain Hre).
Qed.

End AquireTargets_claims.

(** ** [CreateExecConfiguration] and [Execute] *)

Section execution_claims.
Context {collaborators : Collaborators}.

(** Whatever error [CreateExecConfiguration] returns, the configuration
    beside it is the zero value. *)
Lemma CreateExecConfiguration_error_empty (c : KustoCluster)
    (targets : ClusterTargets) (cfgMap : option ConfigMap) (failIfDataLoss : bool)
    (w : World) (config : ExecutionConfiguration) (e : error) (w' : World) :
  CreateExecConfiguration c targets cfgMap failIfDataLoss w
    = (Ret (config, Some e), w') →
  config = {| KQLFile := ""; JobFile := "" |}.
Proof.
  unfold CreateExecConfiguration.
  destruct cfgMap as [cm |]; [| discriminate].
  destruct (Data cm !! "kql") as [kql |]; [| by intros [= <- _ _]].
  unfold call_StoreKQLSchemaToFile, call_wrapper_CreateExecConfiguration,
    mbind, M_bind, log, emit; cbn.
  destruct (StoreKQLSchemaToFile kql) as [kqlFile [e1 |]]; cbn;
    [by intros [= <- _ _] |].
  destruct (wrapper_CreateExecConfiguration _ _ _ _ _) as [job [e2 |]]; cbn;
    [by intros [= <- _ _] | discriminate].
Qed.

(** C9: when a step of [CreateExecConfiguration] fails (no [kql] entry, the
    schema file not stored, the generator failing), the call returns an
    error and, beside it, the empty configuration: neither [KQLFile] nor
    [JobFile] is set; and no error is ever returned beside anything else. *)
Theorem C9_build_fails_closed (c : KustoCluster) (targets : ClusterTargets)
    (cm : ConfigMap) (failIfDataLoss : bool) (w : World) :
  build_step_fails c targets cm failIfDataLoss →
  (∃ e w',
     CreateExecConfiguration c targets (Some cm) failIfDataLoss w
       = (Ret ({| KQLFile := ""; JobFile := "" |}, Some e), w')) ∧
  (∀ cfgMap config e w',
     CreateExecConfiguration c targets cfgMap failIfDataLoss w
       = (Ret (config, Some e), w') →
     KQLFile config = "" ∧ JobFile config = "").
Proof.
  intros Hfail. split.
  - unfold build_step_fails in Hfail. unfold CreateExecConfiguration.
    destruct (Data cm !! "kql") as [kql |]; [| by eexists _, _].
    unfold call_StoreKQLSchemaToFile, call_wrapper_CreateExecConfiguration,
      mbind, M_bind, log, emit; cbn.
    destruct (StoreKQLSchemaToFile kql) as [kqlFile [e1 |]]; cbn;
      [by eexists _, _ |].
    destruct (wrapper_CreateExecConfiguration _ _ _ _ _) as [job [e2 |]]; cbn;
      [by eexists _, _ | by destruct Hfail].
  - intros cfgMap config e w' H.
    by rewrite (CreateExecConfiguration_error_empty _ _ _ _ _ _ _ _ H).
Qed.

(** C10: [Execute] returns the empty [ClusterTargets] and the verdict of
    the apply tool on [config.JobFile], after that one call; the targets,
    the [KQLFile] and the cluster play no part. *)
Theorem C10_Execute_runs_job_file (c : KustoCluster) (targets : ClusterTargets)
    (config : ExecutionConfiguration) (w : World) :
  Execute c targets config w =
    (Ret ({| DBs := [] |}, RunDeltaKusto (JobFile config)),
     w ++ [DeltaKustoRun (JobFile config)]) ∧
  (∀ c' targets' config',
     JobFile config' = JobFile config →
     Execute c' targets' config' w = Execute c targets config w).
Proof.
  split; [reflexivity |].
  intros c' targets' config' Hjob. unfold Execute. by rewrite Hjob.
Qed.

End execution_claims.

(** ** The [regexp] fragment obeys the laws of the package *)

Module re2_facts.
Import re2.

Lemma match_prefix_NoMatch (s : string) : match_prefix NoMatch s = false.
Proof. induction s as [| c s IH]; [done | exact IH]. Qed.

Lemma match_prefix_Alternate (r1 r2 : regex) (s : string) :
  match_prefix (Alternate r1 r2) s = match_prefix r1 s || match_prefix r2 s.
Proof.
  revert r1 r2. induction s as [| c s IH]; intros r1 r2; simpl.
  - by rewrite !orb_false_r.
  - rewrite IH. by destruct (nullable r1), (nullable r2), (match_prefix (deriv c r1) s).
Qed.

Lemma match_prefix_Concat_NoMatch (r : regex) (s : string) :
  match_prefix (Concat NoMatch r) s = false.
Proof. induction s as [| c s IH]; [done | exact IH]. Qed.

Lemma match_prefix_Concat_EmptyMatch (r : regex) (s : string) :
  match_prefix (Concat EmptyMatch r) s = match_prefix r s.
Proof.
  destruct s as [| c s]; simpl; [done |].
  by rewrite match_prefix_Alternate, match_prefix_Concat_NoMatch.
Qed.

(** A concatenation of literals matches the prefixes equal to it. *)
Lemma match_prefix_literals (S d : string) :
  match_prefix (concat_of (literal_items S)) d = String.prefix S d.
Proof.
  revert d. induction S as [| c S IH]; intros d.
  - by destruct d.
  - destruct d as [| c' d]; [done |]. simpl.
    destruct (decide (c' = c)) as [-> | Hne].
    + rewrite match_prefix_Concat_EmptyMatch, IH.
      by destruct (Ascii.ascii_dec c c).
    + rewrite match_prefix_Concat_NoMatch.
      by destruct (Ascii.ascii_dec c c') as [-> |].
Qed.

Lemma search_literals (S d : string) :
  search (Alternate (concat_of (literal_items S)) NoMatch) d = strings.Contains d S.
Proof.
  unfold strings.Contains.
  induction d as [| c d IH]; cbn [search strings.Index];
    rewrite match_prefix_Alternate, match_prefix_NoMatch, orb_false_r,
      match_prefix_literals; unfold strings.HasPrefix.
  - by destruct (String.prefix S "").
  - destruct (String.prefix S (String c d)); [done |].
    rewrite orb_false_l, IH. apply bool_decide_ext. by rewrite fmap_is_Some.
Qed.

Lemma plain_char_not_meta (c : ascii) :
  plain_char c = true → c ∉ metachars.
Proof.
  unfold plain_char. rewrite andb_true_iff, !bool_decide_eq_true. tauto.
Qed.

(** On plain characters the parser only collects literals. *)
Lemma parse_plain (whole t : string) (stack : list frame) (top : frame)
    (lastRepeat : string) :
  plain t = true →
  parse whole t stack top lastRepeat =
    parse whole "" stack
      {| alts := alts top; cur := rev (literal_items t) ++ cur top |} "".
Proof.
  revert top lastRepeat. induction t as [| c t IH]; intros top lastRepeat Hplain.
  - by destruct top.
  - simpl in Hplain. apply andb_true_iff in Hplain as [Hc Ht].
    pose proof (plain_char_not_meta _ Hc) as Hmeta.
    cbn [parse].
    rewrite !decide_False by (intros ->; apply Hmeta; set_solver).
    rewrite decide_False
      by (intros Hin; apply Hmeta; set_unfold in Hin; set_unfold; tauto).
    rewrite Hc, IH by done. cbn [alts cur literal_items rev].
    by rewrite <- app_assoc.
Qed.

Lemma compile_plain (S : string) :
  plain S = true →
  compile S = inl (Alternate (concat_of (literal_items S)) NoMatch).
Proof.
  intros Hplain. unfold compile. rewrite parse_plain by done.
  cbn. unfold close_frame. cbn. by rewrite app_nil_r, rev_involutive.
Qed.

End re2_facts.

Lemma re2_empty_pattern_law : empty_pattern_law re2_fragment.
Proof.
  eexists. split; [reflexivity |].
  intros s. by destruct s.
Qed.

Lemma re2_literal_pattern_law : literal_pattern_law re2_fragment.
Proof.
  intros S re Hplain Hre d. cbn in Hre.
  rewrite re2_facts.compile_plain in Hre by done.
  injection Hre as <-. apply re2_facts.search_literals.
Qed.

(** ** The claims on concrete runs *)

(** The scenarios of the specification. *)
Example resolve_explicit_list :
  AquireTargets (collaborators := healthy) fabrikam (filter_list ["db1"; "db2"]) []
    = (Ret ({| DBs := ["db1"; "db2"] |}, None), []).
Proof. reflexivity. Qed.

Example resolve_no_filter :
  AquireTargets (collaborators := healthy)
    (cluster_answering fabrikam_uri (inl (iterator_of ["a"; "ab"; "b"] None))
       ("/tmp/delta-kusto.yaml", None))
    (filter_list []) []
    = (Ret ({| DBs := ["a"; "ab"; "b"] |}, None),
       [Logged InfoLevel None "Missing db filter - taking all dbs in the cluster";
        MgmtCalled "" show_databases; IterStopped]).
Proof. reflexivity. Qed.

Example resolve_webhook :
  AquireTargets (collaborators := healthy) fabrikam
    (filter_webhook "https://targets.example/lookup" "prod") []
    = (Ret ({| DBs := ["db1"; "db2"] |}, None),
       [WebhookCalled "https://targets.example/lookup" "fabrikam" "prod"]).
Proof. reflexivity. Qed.

(** A glob is not a regular expression: nothing is queried. *)
Example resolve_glob :
  AquireTargets (collaborators := healthy) fabrikam (filter_single "*") []
    = (Ret ({| DBs := [] |},
            Some "error parsing regexp: missing argument to repetition operator: `*`"),
       [Logged ErrorLevel
          (Some "error parsing regexp: missing argument to repetition operator: `*`")
          "parameter proveded is not a valid regexp: *";
        Logged ErrorLevel
          (Some "error parsing regexp: missing argument to repetition operator: `*`")
          "failed retriving list of dbs from cluster"]).
Proof. reflexivity. Qed.

(** Build, then execute: the apply tool is run on the generated job file. *)
Example build_then_execute :
  (cfg ← CreateExecConfiguration (collaborators := healthy) fabrikam
           {| DBs := ["db"] |} (Some cm_with_kql) true;
   Execute (collaborators := healthy) fabrikam {| DBs := ["db"] |} cfg.1) []
  = (Ret ({| DBs := [] |}, None),
     [KQLStored ".create table T (x: int)";
      WrapperCalled fabrikam_uri ["db"] "/tmp/schema.kql" true;
      DeltaKustoRun "/tmp/delta-kusto.yaml"]).
Proof. reflexivity. Qed.

Lemma iterator_of_wellformed (names : list string) (final : option error) :
  rows_wellformed (pending (iterator_of names final)).
Proof.
  unfold rows_wellformed, iterator_of; cbn.
  induction names as [| d names IH]; constructor; done.
Defined.

Lemma C1_resolution_precedence_witness :
  DB (Build_TargetFilter "db" ["x"; "y"] "" "") ≠ "" ∧
  precedence (Build_TargetFilter "db" ["x"; "y"] "" "") = BySingleDB "db" ∧
  resolves_via
    (ListDatabases (collaborators := healthy) fabrikam "db")
    (AquireTargets (collaborators := healthy) fabrikam
       (Build_TargetFilter "db" ["x"; "y"] "" "")).
Proof.
  split; [discriminate |].
  apply (proj1 (proj2 (C1_resolution_precedence (collaborators := healthy)
                         fabrikam (Build_TargetFilter "db" ["x"; "y"] "" "")))).
  discriminate.
Defined.

Lemma C2_ListDatabases_filter_witness :
  ∃ dbs w',
    ListDatabases (collaborators := healthy) fabrikam "db" [] = (Ret (dbs, None), w') ∧
    dbs = ["db"; "db1"; "mydb2"] ∧
    ∃ w0', ListDatabases (collaborators := healthy) fabrikam "" []
             = (Ret (["db"; "db1"; "mydb2"; "other"], None), w0').
Proof.
  destruct (C2_ListDatabases_filter (collaborators := healthy) fabrikam "db"
              (re2.Alternate (re2.concat_of (re2.literal_items "db")) re2.NoMatch)
              (iterator_of ["db"; "db1"; "mydb2"; "other"] None) []
              eq_refl eq_refl eq_refl (iterator_of_wellformed _ _))
    as (dbs & w' & Hrun & Hdbs & _ & _ & Hall).
  exists dbs, w'. split_and!; [exact Hrun | by rewrite Hdbs |].
  exact (Hall re2_empty_pattern_law).
Defined.

Lemma C3_terminal_error_discards_rows_witness :
  ∃ w', ListDatabases (collaborators := healthy) fabrikam_broken "db" []
          = (Ret ([], Some "connection reset by peer"), w').
Proof.
  apply (C3_terminal_error_discards_rows (collaborators := healthy)
           fabrikam_broken "db"
           (re2.Alternate (re2.concat_of (re2.literal_items "db")) re2.NoMatch)
           (iterator_of ["db"; "db1"] (Some "connection reset by peer"))
           "connection reset by peer" [] eq_refl eq_refl eq_refl).
  apply iterator_of_wellformed.
Defined.

Lemma C4_invalid_pattern_fails_fast_witness :
  Compile (RegexpPkg := re2_fragment) "("
    = inr "error parsing regexp: missing closing ): `(`" ∧
  ∃ w',
    ListDatabases (collaborators := healthy) fabrikam "(" []
      = (Ret ([], Some "error parsing regexp: missing closing ): `(`"), w') ∧
    w' = [] ++ [Logged ErrorLevel (Some "error parsing regexp: missing closing ): `(`")
                  ("parameter proveded is not a valid regexp: " +:+ "(")] ∧
    mgmt_calls w' = mgmt_calls [].
Proof.
  split; [reflexivity |].
  apply (C4_invalid_pattern_fails_fast (collaborators := healthy) fabrikam "(").
  reflexivity.
Defined.

Lemma C5_explicit_list_verbatim_witness :
  AquireTargets (collaborators := healthy) fabrikam (filter_list ["db1"; "db2"]) []
    = (Ret ({| DBs := ["db1"; "db2"] |}, None), []).
Proof.
  apply (C5_explicit_list_verbatim (collaborators := healthy) fabrikam
           (filter_list ["db1"; "db2"]) []); [reflexivity | discriminate].
Defined.

(** C7, as stated, fails: [db] has no metacharacter, yet resolving with
    singleDB [db] on a cluster that has [db], [db1], [mydb2] and [other]
    selects the three names that contain [db], not only the one equal to
    it. *)
Lemma C7_counterexample :
  plain "db" = true ∧
  ∃ w',
    AquireTargets (collaborators := healthy) fabrikam (filter_single "db") []
      = (Ret ({| DBs := ["db"; "db1"; "mydb2"] |}, None), w') ∧
    ¬ (∀ d, d ∈ ["db"; "db1"; "mydb2"] ↔
            d ∈ ["db"; "db1"; "mydb2"; "other"] ∧ d = "db").
Proof.
  split; [reflexivity |]. eexists. split; [reflexivity |].
  intros H. destruct (proj1 (H "db1")) as [_ Heq]; [| discriminate Heq].
  apply list_elem_of_In. simpl. tauto.
Qed.

Lemma C7_single_db_is_substring_match_witness :
  ∃ targets w',
    AquireTargets (collaborators := healthy) fabrikam (filter_single "db") []
      = (Ret (targets, None), w') ∧
    DBs targets = ["db"; "db1"; "mydb2"].
Proof.
  destruct (C7_single_db_is_substring_match (collaborators := healthy) fabrikam
              (filter_single "db")
              (re2.Alternate (re2.concat_of (re2.literal_items "db")) re2.NoMatch)
              (iterator_of ["db"; "db1"; "mydb2"; "other"] None) []
              re2_literal_pattern_law ltac:(discriminate)
              eq_refl eq_refl eq_refl eq_refl (iterator_of_wellformed _ _))
    as (targets & w' & Hrun & Hdbs).
  exists targets, w'. split; [exact Hrun | by rewrite Hdbs].
Defined.

(** C8, as stated, fails: an explicit list with a repeated name comes back
    with the name repeated. *)
Lemma C8_counterexample :
  AquireTargets (collaborators := healthy) fabrikam (filter_list ["db1"; "db1"]) []
    = (Ret ({| DBs := ["db1"; "db1"] |}, None), []) ∧
  ¬ NoDup (DBs {| DBs := ["db1"; "db1"] |}).
Proof.
  split; [reflexivity |].
  intros Hnd. apply NoDup_cons in Hnd as [Hnotin _].
  apply Hnotin. by left.
Qed.

Lemma C8_targets_within_source_witness :
  DBs {| DBs := ["db"; "db1"; "mydb2"] |}
    `sublist_of` strategy_source (collaborators := healthy) fabrikam (filter_single "db") ∧
  (NoDup (strategy_source (collaborators := healthy) fabrikam (filter_single "db")) →
   NoDup (DBs {| DBs := ["db"; "db1"; "mydb2"] |})).
Proof.
  apply (C8_targets_within_source (collaborators := healthy) fabrikam
           (filter_single "db") [] {| DBs := ["db"; "db1"; "mydb2"] |}
           [MgmtCalled "" show_databases; IterStopped]).
  reflexivity.
Defined.

Lemma C9_build_fails_closed_witness :
  (∃ e w',
     CreateExecConfiguration (collaborators := healthy) fabrikam
       {| DBs := ["db"] |} (Some cm_without_kql) false []
       = (Ret ({| KQLFile := ""; JobFile := "" |}, Some e), w')) ∧
  (∃ e w',
     CreateExecConfiguration (collaborators := no_storage) fabrikam
       {| DBs := ["db"] |} (Some cm_with_kql) false []
       = (Ret ({| KQLFile := ""; JobFile := "" |}, Some e), w')) ∧
  (∃ e w',
     CreateExecConfiguration (collaborators := healthy) fabrikam_no_generator
       {| DBs := ["db"] |} (Some cm_with_kql) false []
       = (Ret ({| KQLFile := ""; JobFile := "" |}, Some e), w')).
Proof.
  split_and!.
  - apply (C9_build_fails_closed (collaborators := healthy) fabrikam
             {| DBs := ["db"] |} cm_without_kql false []).
    vm_compute. exact I.
  - apply (C9_build_fails_closed (collaborators := no_storage) fabrikam
             {| DBs := ["db"] |} cm_with_kql false []).
    vm_compute. exact I.
  - apply (C9_build_fails_closed (collaborators := healthy) fabrikam_no_generator
             {| DBs := ["db"] |} cm_with_kql false []).
    vm_compute. by eexists.
Defined.

Lemma C10_Execute_runs_job_file_witness :
  Execute (collaborators := healthy) fabrikam {| DBs := ["db"; "db1"] |}
    {| KQLFile := "/tmp/schema.kql"; JobFile := "/tmp/delta-kusto.yaml" |} []
  = (Ret ({| DBs := [] |}, None), [DeltaKustoRun "/tmp/delta-kusto.yaml"]).
Proof.
  apply (proj1 (C10_Execute_runs_job_file (collaborators := healthy) fabrikam
                  {| DBs := ["db"; "db1"] |}
                  {| KQLFile := "/tmp/schema.kql"; JobFile := "/tmp/delta-kusto.yaml" |}
                  [])).
Defined.

(** * Further properties of the package *)

(** ** [ClusterNameFromURI]: where it is defined and what it returns *)

Lemma prefix_take (sep s : string) (n : nat) :
  String.prefix sep (strings.take n s) = true → String.prefix sep s = true.
Proof.
  revert s n. induction sep as [| a sep IH]; intros s n H; [by destruct s |].
  destruct s as [| b s]; [by destruct n |].
  destruct n as [| n]; [discriminate H |]. simpl in *.
  destruct (Ascii.ascii_dec a b); [by eapply IH | done].
Qed.

Lemma Index_empty_string (c : ascii) (sep : string) :
  strings.Index "" (String c sep) = None.
Proof. reflexivity. Qed.

(** A prefix of a string without [sep] has no [sep]. *)
Lemma Index_take_None (sep s : string) (n : nat) :
  strings.Index s sep = None → strings.Index (strings.take n s) sep = None.
Proof.
  revert n. induction s as [| c s IH]; intros n H; [by destruct n |].
  apply Index_None_inv in H as [Hpre Hs].
  destruct n as [| n].
  - destruct sep as [| a sep]; [| done].
    unfold strings.HasPrefix in Hpre. discriminate Hpre.
  - cbn [strings.take strings.Index].
    destruct (strings.HasPrefix (String c (strings.take n s)) sep) eqn:Hpre'.
    + unfold strings.HasPrefix in *.
      apply (prefix_take sep (String c s) (S n)) in Hpre'. congruence.
    + by rewrite IH.
Qed.

(** Cut before its first [sep], a string has no [sep] left. *)
Lemma Index_take_first (c : ascii) (sep s : string) (m : nat) :
  strings.Index s (String c sep) = Some m →
  strings.Index (strings.take m s) (String c sep) = None.
Proof.
  revert m. induction s as [| b s IH]; intros m H; [discriminate H |].
  cbn [strings.Index] in H.
  destruct (strings.HasPrefix (String b s) (String c sep)) eqn:Hpre.
  - by injection H as <-.
  - destruct (strings.Index s (String c sep)) as [m' |] eqn:Hm'; [| discriminate H].
    injection H as <-. cbn [strings.take strings.Index].
    destruct (strings.HasPrefix (String b (strings.take m' s)) (String c sep)) eqn:Hpre'.
    + unfold strings.HasPrefix in *.
      apply (prefix_take _ (String b s) (S m')) in Hpre'. congruence.
    + by rewrite IH.
Qed.

Lemma up_to_free (c : ascii) (sep s : string) :
  strings.Index (up_to (String c sep) s) (String c sep) = None.
Proof.
  unfold up_to. destruct (strings.Index s (String c sep)) as [m |] eqn:Hm.
  - by apply Index_take_first.
  - done.
Qed.

Lemma up_to_keeps_free (sep sep' s : string) :
  strings.Index s sep' = None → strings.Index (up_to sep s) sep' = None.
Proof.
  intros H. unfold up_to. destruct (strings.Index s sep); [| done].
  by apply Index_take_None.
Qed.

(** The name, when the scheme occurs. *)
Lemma ClusterNameFromURI_found (uri : string) (m : nat) :
  strings.Index uri "https://" = Some m →
  ClusterNameFromURI uri =
    Ret (up_to "." (up_to "https://" (strings.drop (m + 8) uri))).
Proof.
  intros H. unfold ClusterNameFromURI, index.
  rewrite (Split_second _ _ _ _ H). cbn [rbind].
  by rewrite Split_head.
Qed.

(** X1: [ClusterNameFromURI] returns a name exactly on the strings in which
    [https://] occurs, and panics on all others; the name is what lies
    between the end of the first [https://] and the next [https://] or dot,
    whichever comes first, or the end of the string. *)
Theorem X1_ClusterNameFromURI_domain (uri : string) :
  (is_Some (strings.Index uri "https://") ↔
     ∃ name, ClusterNameFromURI uri = Ret name) ∧
  (strings.Index uri "https://" = None ↔
     ClusterNameFromURI uri = Panic (IndexOutOfRange 1 1)) ∧
  (∀ m, strings.Index uri "https://" = Some m →
     ClusterNameFromURI uri =
       Ret (up_to "." (up_to "https://" (strings.drop (m + 8) uri)))).
Proof.
  destruct (strings.Index uri "https://") as [m |] eqn:Hm.
  - pose proof (ClusterNameFromURI_found _ _ Hm) as Hname.
    split_and!.
    + split; [by eexists | by eexists].
    + split; [discriminate | rewrite Hname; discriminate].
    + by intros m' [= <-].
  - assert (ClusterNameFromURI uri = Panic (IndexOutOfRange 1 1)) as Hp.
    { unfold ClusterNameFromURI. by rewrite (Split_no_separator _ _ _ Hm). }
    split_and!.
    + split; [by intros [? ?] | intros [name Hname]; congruence].
    + done.
    + discriminate.
Qed.

(** X2: a name [ClusterNameFromURI] returns holds neither a dot nor
    [https://], and it is stable: put back behind the scheme and before a
    dot, the same name comes out. *)
Theorem X2_ClusterNameFromURI_name (uri name : string) :
  ClusterNameFromURI uri = Ret name →
  strings.Index name "." = None ∧
  strings.Index name "https://" = None ∧
  ∀ rest, ClusterNameFromURI ("https://" +:+ (name +:+ ("." +:+ rest))) = Ret name.
Proof.
  intros H.
  destruct (strings.Index uri "https://") as [m |] eqn:Hm.
  2: { unfold ClusterNameFromURI in H.
       rewrite (Split_no_separator _ _ _ Hm) in H. discriminate H. }
  rewrite (ClusterNameFromURI_found _ _ Hm) in H. injection H as <-.
  assert (strings.Index (up_to "." (up_to "https://" (strings.drop (m + 8) uri))) "."
          = None) as Hdot by apply up_to_free.
  assert (strings.Index (up_to "." (up_to "https://" (strings.drop (m + 8) uri)))
            "https://" = None) as Hscheme
    by apply up_to_keeps_free, up_to_free.
  split_and!; [done | done |].
  intros rest. by apply ClusterNameFromURI_wellformed.
Qed.

(** X3: behind the scheme no dot is needed: when the rest of the URI holds
    neither a dot nor another [https://], all of it is the name, port and
    path included. *)
Theorem X3_ClusterNameFromURI_dotless (rest : string) :
  strings.Index rest "." = None →
  strings.Index rest "https://" = None →
  ClusterNameFromURI ("https://" +:+ rest) = Ret rest.
Proof.
  intros Hdot Hscheme.
  rewrite (ClusterNameFromURI_found _ 0 (Index_app _ _ _)).
  change (strings.drop (0 + 8) ("https://" +:+ rest)) with rest.
  unfold up_to. by rewrite Hscheme, Hdot.
Qed.

(** ** [ListDatabases]: every path through it *)

Lemma webhook_calls_app (w1 w2 : World) :
  webhook_calls (w1 ++ w2) = webhook_calls w1 + webhook_calls w2.
Proof. unfold webhook_calls. by rewrite filter_app, length_app. Qed.

Lemma iter_stops_app (w1 w2 : World) :
  iter_stops (w1 ++ w2) = iter_stops w1 + iter_stops w2.
Proof. unfold iter_stops. by rewrite filter_app, length_app. Qed.

(** Log lines count for nothing. *)
Lemma logs_count_nothing (logs : World) :
  Forall (λ e, is_log e) logs →
  mgmt_calls logs = 0 ∧ webhook_calls logs = 0 ∧ iter_stops logs = 0.
Proof.
  unfold mgmt_calls, webhook_calls, iter_stops.
  induction 1 as [| e logs He _ IH]; [done |].
  by destruct e.
Qed.

Lemma inline_logs_are_logs (items : list RowOrError) :
  Forall (λ e, is_log e) (inline_logs items).
Proof.
  unfold inline_logs. induction items as [| [row | e] items IH]; simpl; auto.
Qed.




(** A stream is well-formed, or has a first row without columns. *)
Lemma rows_wellformed_or_ragged (items : list RowOrError) :
  rows_wellformed items ∨
  ∃ pre post, items = pre ++ IsRow {| Values := [] |} :: post ∧ rows_wellformed pre.
Proof.
  induction items as [| item items IH]; [left; constructor |].
  destruct item as [[[| v vals]] | e].
  - right. exists [], items. split; [done | constructor].
  - destruct IH as [IH | (pre & post & -> & Hpre)].
    + left. by constructor.
    + right. exists (IsRow {| Values := v :: vals |} :: pre), post.
      split; [done | by constructor].
  - destruct IH as [IH | (pre & post & -> & Hpre)].
    + left. by constructor.
    + right. exists (IsInlineError e :: pre), post.
      split; [done | by constructor].
Qed.

Section ListDatabases_paths.
Context {collaborators : Collaborators}.

(** The loop up to a row without columns: the callback panics on it, and
    the rows behind it are never read. *)
Lemma DoOnRowOrError_loop_ragged (re : Regexp) (pre post : list RowOrError)
    (final : option error) (acc : list string) (w : World) :
  rows_wellformed pre →
  DoOnRowOrError_loop (pre ++ IsRow {| Values := [] |} :: post) final
      (ListDatabases_onRow re) acc w =
    (Panic (IndexOutOfRange 0 0), w ++ inline_logs pre).
Proof.
  intros Hwf. revert acc w.
  induction Hwf as [| item items Hitem _ IH]; intros acc w.
  - simpl. by rewrite app_nil_r.
  - destruct item as [[vals] | e]; simpl in Hitem.
    + destruct vals as [| v vals]; [done |].
      cbn. unfold mbind, M_bind, lift, index; cbn.
      destruct (MatchString re v); cbn; by rewrite IH.
    + cbn. unfold mbind, M_bind, log, emit; cbn.
      rewrite IH. by rewrite <- app_assoc.
Qed.

Lemma ListDatabases_ragged (c : KustoCluster) (P : string) (re : Regexp)
    (iter : RowIterator) (pre post : list RowOrError) (w : World) :
  Compile P = inl re →
  Mgmt (Client c) "" show_databases = inl iter →
  pending iter = pre ++ IsRow {| Values := [] |} :: post →
  rows_wellformed pre →
  ListDatabases c P w =
    (Panic (IndexOutOfRange 0 0),
     w ++ [MgmtCalled "" show_databases] ++ inline_logs pre ++ [IterStopped]).
Proof.
  intros Hre Hq Hpending Hwf. unfold ListDatabases. rewrite Hre.
  unfold call_Mgmt, mbind, M_bind, emit; cbn. rewrite Hq.
  unfold defer, DoOnRowOrError, mbind, M_bind. rewrite Hpending.
  rewrite DoOnRowOrError_loop_ragged by done. cbn.
  by rewrite <- !app_assoc.
Qed.

(** Behind a query that was answered, whatever the stream: the trace gains
    the query, log lines, and the release of the iterator, in this order. *)
Lemma ListDatabases_answered (c : KustoCluster) (P : string) (re : Regexp)
    (iter : RowIterator) (w : World) :
  Compile P = inl re →
  Mgmt (Client c) "" show_databases = inl iter →
  ∃ r logs,
    ListDatabases c P w =
      (r, w ++ [MgmtCalled "" show_databases] ++ logs ++ [IterStopped]) ∧
    Forall (λ e, is_log e) logs.
Proof.
  intros Hre Hq.
  destruct (rows_wellformed_or_ragged (pending iter))
    as [Hwf | (pre & post & Hpending & Hwf)].
  - rewrite (ListDatabases_rows _ _ _ _ _ Hre Hq Hwf).
    destruct (terminal iter) as [e |].
    + eexists _, (inline_logs (pending iter)
                   ++ [Logged ErrorLevel (Some e) "failed to iterate results"]).
      split; [by rewrite <- !app_assoc |].
      apply Forall_app. split; [apply inline_logs_are_logs | by constructor].
    + eexists _, _. split; [done | apply inline_logs_are_logs].
  - rewrite (ListDatabases_ragged _ _ _ _ _ _ _ Hre Hq Hpending Hwf).
    eexists _, _. split; [done | apply inline_logs_are_logs].
Qed.

(** The trace of any call: what it gains holds at most one management
    query, no webhook call, and as many releases as iterators. *)
Lemma ListDatabases_gains (c : KustoCluster) (P : string) (w : World) :
  ∃ r gained,
    ListDatabases c P w = (r, w ++ gained) ∧
    mgmt_calls gained = match Compile P with inl _ => 1 | inr _ => 0 end ∧
    webhook_calls gained = 0 ∧
    iter_stops gained =
      match Compile P, Mgmt (Client c) "" show_databases with
      | inl _, inl _ => 1
      | _, _ => 0
      end.
Proof.
  destruct (Compile P) as [re | e] eqn:Hre.
  - destruct (Mgmt (Client c) "" show_databases) as [iter | e] eqn:Hq.
    + destruct (ListDatabases_answered c P re iter w Hre Hq)
        as (r & logs & -> & Hlogs).
      apply logs_count_nothing in Hlogs as (Hm & Hw & Hs).
      eexists _, _. split; [done |].
      rewrite !mgmt_calls_app, !webhook_calls_app, !iter_stops_app, Hm, Hw, Hs.
      done.
    + rewrite (ListDatabases_query_failed _ _ _ _ _ Hre Hq).
      by eexists _, _.
  - rewrite (ListDatabases_invalid _ _ _ _ Hre). by eexists _, _.
Qed.

(** X4: when the management query itself is refused, [ListDatabases]
    returns no name and the error of the query as it is; the query was made
    once and there is no iterator to release. *)
Theorem X4_ListDatabases_query_refused (c : KustoCluster) (P : string)
    (re : Regexp) (e : error) (w : World) :
  Compile P = inl re →
  Mgmt (Client c) "" show_databases = inr e →
  ∃ w',
    ListDatabases c P w = (Ret ([], Some e), w') ∧
    w' = w ++ [MgmtCalled "" show_databases;
               Logged ErrorLevel (Some e) "Failed to query mgmt api"] ∧
    mgmt_calls w' = mgmt_calls w + 1 ∧
    iter_stops w' = iter_stops w.
Proof.
  intros Hre Hq. eexists. split_and!.
  - exact (ListDatabases_query_failed _ _ _ _ _ Hre Hq).
  - done.
  - by rewrite mgmt_calls_app.
  - rewrite iter_stops_app. by rewrite Nat.add_0_r.
Qed.


(** X6: once the query is answered the iterator is released exactly once,
    as the last thing that happens, on every path: rows to the end, a
    terminal error, or a panic of the callback. *)
Theorem X6_iterator_released (c : KustoCluster) (P : string) (re : Regexp)
    (iter : RowIterator) (w : World) :
  Compile P = inl re →
  Mgmt (Client c) "" show_databases = inl iter →
  ∃ r w1,
    ListDatabases c P w = (r, w1 ++ [IterStopped]) ∧
    iter_stops (w1 ++ [IterStopped]) = iter_stops w + 1.
Proof.
  intros Hre Hq.
  destruct (ListDatabases_answered c P re iter w Hre Hq) as (r & logs & HLD & Hlogs).
  apply logs_count_nothing in Hlogs as (_ & _ & Hs).
  exists r, (w ++ [MgmtCalled "" show_databases] ++ logs). split.
  - rewrite HLD. by rewrite <- !app_assoc.
  - rewrite !iter_stops_app, Hs.
    change (iter_stops [MgmtCalled "" show_databases]) with 0.
    change (iter_stops [IterStopped]) with 1. lia.
Qed.

(** X7: a row without columns makes [ListDatabases] panic with an index out
    of range, when the rows before it are sound; the rows behind it are not
    read, the names collected are lost, and the iterator is still
    released. *)
Theorem X7_row_without_columns_panics (c : KustoCluster) (P : string)
    (re : Regexp) (iter : RowIterator) (pre post : list RowOrError) (w : World) :
  Compile P = inl re →
  Mgmt (Client c) "" show_databases = inl iter →
  pending iter = pre ++ IsRow {| Values := [] |} :: post →
  rows_wellformed pre →
  ListDatabases c P w =
    (Panic (IndexOutOfRange 0 0),
     w ++ [MgmtCalled "" show_databases] ++ inline_logs pre ++ [IterStopped]).
Proof. apply ListDatabases_ragged. Qed.

(** X8: [ListDatabases] makes exactly one management query when the pattern
    compiles and none when it does not, whatever the cluster answers, and
    never calls the webhook. *)
Theorem X8_one_management_query (c : KustoCluster) (P : string) (w : World) :
  mgmt_calls (ListDatabases c P w).2 =
    mgmt_calls w + match Compile P with inl _ => 1 | inr _ => 0 end ∧
  webhook_calls (ListDatabases c P w).2 = webhook_calls w.
Proof.
  destruct (ListDatabases_gains c P w) as (r & gained & -> & Hm & Hw & _).
  cbn [snd]. rewrite mgmt_calls_app, webhook_calls_app, Hm, Hw. lia.
Qed.

End ListDatabases_paths.

(** ** [AquireTargets]: failures, panics and calls *)

Lemma filter_nothing {A : Type} (P : A → Prop) `{!∀ x, Decision (P x)}
    (l : list A) :
  (∀ x, x ∈ l → ¬ P x) → filter P l = [].
Proof.
  induction l as [| x l IH]; intros HP; [done |].
  rewrite filter_cons, decide_False by (apply HP; by left).
  apply IH. intros y Hy. apply HP. by right.
Qed.

Section AquireTargets_paths.
Context {collaborators : Collaborators}.

(** X9: [AquireTargets] never returns targets beside an error: whenever an
    error comes back, whatever the strategy, the target list is empty, and
    the last thing in the trace is the log line of that error. *)
Theorem X9_no_targets_beside_an_error (c : KustoCluster) (filter : TargetFilter)
    (w : World) (targets : ClusterTargets) (e : error) (w' : World) :
  AquireTargets c filter w = (Ret (targets, Some e), w') →
  DBs targets = [] ∧
  last w' = Some (Logged ErrorLevel (Some e) "failed retriving list of dbs from cluster").
Proof.
  intros H. pose proof (AquireTargets_resolves_via c filter w) as Hvia.
  destruct (run_strategy c (precedence filter) w) as [[[dbs [e' |]] | p] w1];
    rewrite H in Hvia; [| discriminate Hvia | discriminate Hvia].
  injection Hvia as -> -> ->. split; [done | apply last_snoc].
Qed.

(** X10: a singleDB value that is not a regular expression fails the
    resolution, whatever the other fields hold: no fall-back to the
    explicit list, the webhook or all databases, and no call leaves the
    package. *)
Theorem X10_invalid_single_db_no_fallback (c : KustoCluster)
    (filter : TargetFilter) (e : error) (w : World) :
  DB filter ≠ "" →
  Compile (DB filter) = inr e →
  AquireTargets c filter w =
    (Ret ({| DBs := [] |}, Some e),
     w ++ [Logged ErrorLevel (Some e)
             ("parameter proveded is not a valid regexp: " +:+ DB filter);
           Logged ErrorLevel (Some e) "failed retriving list of dbs from cluster"]).
Proof.
  intros HDB Hre. pose proof (AquireTargets_resolves_via c filter w) as Hvia.
  unfold precedence in Hvia. rewrite decide_False in Hvia by done.
  cbn [run_strategy] in Hvia. rewrite (ListDatabases_invalid _ _ _ _ Hre) in Hvia.
  rewrite Hvia. by rewrite <- app_assoc.
Qed.

(** X11: with the webhook strategy and a cluster URI in which [https://]
    does not occur, [AquireTargets] panics while it computes the short
    name, before the webhook is called: the trace is unchanged. *)
Theorem X11_webhook_needs_the_scheme (c : KustoCluster) (filter : TargetFilter)
    (w : World) :
  DB filter = "" →
  DBS filter = [] →
  Webhook filter ≠ "" →
  strings.Index (URI c) "https://" = None →
  AquireTargets c filter w = (Panic (IndexOutOfRange 1 1), w).
Proof.
  intros HDB HDBS HW Huri.
  pose proof (AquireTargets_resolves_via c filter w) as Hvia.
  unfold precedence in Hvia. rewrite !decide_True, decide_False in Hvia by done.
  cbn [run_strategy] in Hvia. unfold mbind, M_bind, lift in Hvia.
  unfold ClusterNameFromURI in Hvia.
  by rewrite (Split_no_separator _ _ _ Huri) in Hvia.
Qed.

(** X12: with the webhook strategy and a short name [cluster], the webhook
    is called once, with the endpoint, [cluster] and the label, and the
    cluster is not queried; the names it answers become the targets as they
    are, and an error it answers is returned with no target, also when
    names came beside it. *)
Theorem X12_webhook_outcome (c : KustoCluster) (filter : TargetFilter)
    (cluster : string) (w : World) :
  DB filter = "" →
  DBS filter = [] →
  Webhook filter ≠ "" →
  ClusterNameFromURI (URI c) = Ret cluster →
  AquireTargets c filter w =
    match PerformQuery (Webhook filter) cluster (Label filter) with
    | (dbs, None) =>
        (Ret ({| DBs := dbs |}, None),
         w ++ [WebhookCalled (Webhook filter) cluster (Label filter)])
    | (_, Some e) =>
        (Ret ({| DBs := [] |}, Some e),
         w ++ [WebhookCalled (Webhook filter) cluster (Label filter);
               Logged ErrorLevel (Some e) "failed retriving list of dbs from cluster"])
    end.
Proof.
  intros HDB HDBS HW Hname.
  pose proof (AquireTargets_resolves_via c filter w) as Hvia.
  unfold precedence in Hvia. rewrite !decide_True, decide_False in Hvia by done.
  cbn [run_strategy] in Hvia.
  unfold mbind, M_bind, lift, call_PerformQuery, emit in Hvia.
  rewrite Hname in Hvia. cbn in Hvia.
  destruct (PerformQuery (Webhook filter) cluster (Label filter)) as [dbs [e |]];
    cbn in Hvia; rewrite Hvia; [by rewrite <- app_assoc | done].
Qed.

(** What [AquireTargets] adds to the trace, on every path. *)
Lemma AquireTargets_gains (c : KustoCluster) (filter : TargetFilter) (w : World) :
  ∃ r gained,
    AquireTargets c filter w = (r, w ++ gained) ∧
    mgmt_calls gained + webhook_calls gained ≤ 1 ∧
    iter_stops gained ≤ mgmt_calls gained.
Proof.
  pose proof (AquireTargets_resolves_via c filter w) as Hvia.
  assert (∃ r gained,
    run_strategy c (precedence filter) w = (r, w ++ gained) ∧
    mgmt_calls gained + webhook_calls gained ≤ 1 ∧
    iter_stops gained ≤ mgmt_calls gained) as (r & gained & Hrun & Hcalls & Hstops).
  { assert (∀ P w0, ∃ r gained,
      ListDatabases c P w0 = (r, w0 ++ gained) ∧
      mgmt_calls gained + webhook_calls gained ≤ 1 ∧
      iter_stops gained ≤ mgmt_calls gained) as Hlist.
    { intros P w0.
      destruct (ListDatabases_gains c P w0) as (r & gained & HLD & Hm & Hw & Hs).
      exists r, gained. split; [done |]. rewrite Hm, Hw, Hs.
      destruct (Compile P), (Mgmt (Client c) "" show_databases); lia. }
    destruct (precedence filter) as [pattern | dbs | url label |];
      cbn [run_strategy].
    - apply Hlist.
    - exists (Ret (dbs, None)), []. rewrite app_nil_r. split; [done | vm_compute; lia].
    - unfold mbind, M_bind, lift, call_PerformQuery, emit.
      destruct (ClusterNameFromURI (URI c)) as [cluster | p]; cbn.
      + eexists _, _. split; [done |]. vm_compute. lia.
      + eexists _, []. rewrite app_nil_r. split; [done | vm_compute; lia].
    - unfold mbind at 1, M_bind at 1, log, emit.
      destruct (Hlist "" (w ++ [Logged InfoLevel None
                  "Missing db filter - taking all dbs in the cluster"]))
        as (r & gained & -> & Hcalls & Hstops).
      eexists r, (_ :: gained). split; [by rewrite <- app_assoc |]. done. }
  rewrite Hrun in Hvia.
  destruct r as [[dbs [e |]] | p]; rewrite Hvia.
  - eexists _, (gained ++ [_]). split; [by rewrite app_assoc |].
    rewrite mgmt_calls_app, webhook_calls_app, iter_stops_app.
    change (mgmt_calls [Logged ErrorLevel (Some e)
              "failed retriving list of dbs from cluster"]) with 0.
    change (webhook_calls [Logged ErrorLevel (Some e)
              "failed retriving list of dbs from cluster"]) with 0.
    change (iter_stops [Logged ErrorLevel (Some e)
              "failed retriving list of dbs from cluster"]) with 0.
    lia.
  - by eexists _, _.
  - by eexists _, _.
Qed.

(** X13: one resolution makes at most one call to the outside, a management
    query or a webhook call and never both, on every path; it only adds to
    the trace; and an iterator is released only if a query was made. *)
Theorem X13_at_most_one_outside_call (c : KustoCluster) (filter : TargetFilter)
    (w : World) :
  let w' := (AquireTargets c filter w).2 in
  w `prefix_of` w' ∧
  mgmt_calls w' + webhook_calls w' ≤ mgmt_calls w + webhook_calls w + 1 ∧
  iter_stops w' - iter_stops w ≤ mgmt_calls w' - mgmt_calls w.
Proof.
  destruct (AquireTargets_gains c filter w) as (r & gained & -> & Hcalls & Hstops).
  cbn [snd]. split_and!.
  - by apply prefix_app_r.
  - rewrite mgmt_calls_app, webhook_calls_app. lia.
  - rewrite mgmt_calls_app, iter_stops_app. lia.
Qed.

(** X14: a filter with no field set, an empty explicit list included,
    selects every database of the cluster: after the log line that says so,
    the cluster is listed with the empty pattern, which matches all
    names. *)
Theorem X14_no_filter_selects_all (c : KustoCluster) (filter : TargetFilter)
    (iter : RowIterator) (w : World) :
  empty_pattern_law regexp_pkg →
  DB filter = "" →
  DBS filter = [] →
  Webhook filter = "" →
  Mgmt (Client c) "" show_databases = inl iter →
  terminal iter = None →
  rows_wellformed (pending iter) →
  AquireTargets c filter w =
    (Ret ({| DBs := DatabaseNames (pending iter) |}, None),
     w ++ [Logged InfoLevel None "Missing db filter - taking all dbs in the cluster";
           MgmtCalled "" show_databases]
       ++ inline_logs (pending iter) ++ [IterStopped]).
Proof.
  intros (re & Hre & Hall) HDB HDBS HW Hq Hend Hwf.
  pose proof (AquireTargets_resolves_via c filter w) as Hvia.
  unfold precedence in Hvia. rewrite !decide_True in Hvia by done.
  cbn [run_strategy] in Hvia. unfold mbind at 1, M_bind at 1, log, emit in Hvia.
  rewrite (ListDatabases_rows _ _ _ _ _ Hre Hq Hwf), Hend in Hvia.
  rewrite Hvia. rewrite filter_everything by (intros d; by rewrite Hall).
  by rewrite <- !app_assoc.
Qed.

(** A strategy reads the cluster's URI and client, nothing else. *)
Lemma run_strategy_same_cluster (c c' : KustoCluster) (s : Strategy) (w : World) :
  URI c = URI c' →
  Client c = Client c' →
  run_strategy c s w = run_strategy c' s w.
Proof.
  destruct c as [uri dbs client wr], c' as [uri' dbs' client' wr']; cbn.
  intros -> ->. by destruct s.
Qed.

(** X20: only the winning field of the filter counts, and of the cluster
    only its URI and client: two filters with the same first populated field
    (and, for the webhook, the same label) resolve alike on two clusters
    with the same URI and client, whatever the lower fields, the cached
    database list or the wrapper are. *)
Theorem X20_lower_fields_ignored (c c' : KustoCluster) (f f' : TargetFilter)
    (w : World) :
  URI c = URI c' →
  Client c = Client c' →
  precedence f = precedence f' →
  AquireTargets c f w = AquireTargets c' f' w.
Proof.
  intros Huri Hclient Hprec.
  pose proof (AquireTargets_resolves_via c f w) as Hvia.
  pose proof (AquireTargets_resolves_via c' f' w) as Hvia'.
  rewrite <- Hprec, <- (run_strategy_same_cluster c c' _ w Huri Hclient) in Hvia'.
  destruct (run_strategy c (precedence f) w) as [[[dbs [e |]] | p] w1];
    by rewrite Hvia, Hvia'.
Qed.

(** X21: a pattern that matches no database is no error: the listing and
    the resolution by singleDB return an empty list and a nil error, as for
    a cluster without databases. *)
Theorem X21_no_match_is_no_error (c : KustoCluster) (filter : TargetFilter)
    (re : Regexp) (iter : RowIterator) (w : World) :
  DB filter ≠ "" →
  Compile (DB filter) = inl re →
  Mgmt (Client c) "" show_databases = inl iter →
  terminal iter = None →
  rows_wellformed (pending iter) →
  (∀ d, d ∈ DatabaseNames (pending iter) → MatchString re d = false) →
  ∃ w',
    ListDatabases c (DB filter) w = (Ret ([], None), w') ∧
    AquireTargets c filter w = (Ret ({| DBs := [] |}, None), w').
Proof.
  intros HDB Hre Hq Hend Hwf Hnone.
  pose proof (AquireTargets_resolves_via c filter w) as Hvia.
  unfold precedence in Hvia. rewrite decide_False in Hvia by done.
  cbn [run_strategy] in Hvia.
  rewrite (ListDatabases_rows _ _ _ _ _ Hre Hq Hwf), Hend in *.
  rewrite filter_nothing in *
    by (intros d Hd; rewrite (Hnone d Hd); by intros []).
  by eexists.
Qed.

End AquireTargets_paths.

(** ** [CreateExecConfiguration] and [Execute]: every path, and together *)

Section execution_paths.
Context {collaborators : Collaborators}.

Lemma CreateExecConfiguration_built (c : KustoCluster) (targets : ClusterTargets)
    (cm : ConfigMap) (failIfDataLoss : bool) (kql kqlFile job : string) (w : World) :
  Data cm !! "kql" = Some kql →
  StoreKQLSchemaToFile kql = (kqlFile, None) →
  wrapper_CreateExecConfiguration (wrapper c) (URI c) (DBs targets) kqlFile
    failIfDataLoss = (job, None) →
  CreateExecConfiguration c targets (Some cm) failIfDataLoss w =
    (Ret ({| KQLFile := kqlFile; JobFile := job |}, None),
     w ++ [KQLStored kql;
           WrapperCalled (URI c) (DBs targets) kqlFile failIfDataLoss]).
Proof.
  intros Hkql Hstore Hgen. unfold CreateExecConfiguration. rewrite Hkql.
  unfold call_StoreKQLSchemaToFile, call_wrapper_CreateExecConfiguration,
    mbind, M_bind, emit; cbn.
  rewrite Hstore; cbn. rewrite Hgen; cbn. by rewrite <- app_assoc.
Qed.

(** X15: when the [kql] entry is there, the schema is stored and the
    generator succeeds, the configuration holds the reference of the stored
    schema and the reference of the generated job; the generator was handed
    the cluster URI, the target list (empty or not), that schema reference
    and the data-loss flag as they are; nothing is logged. *)
Theorem X15_build_succeeds (c : KustoCluster) (targets : ClusterTargets)
    (cm : ConfigMap) (failIfDataLoss : bool) (kql kqlFile job : string) (w : World) :
  Data cm !! "kql" = Some kql →
  StoreKQLSchemaToFile kql = (kqlFile, None) →
  wrapper_CreateExecConfiguration (wrapper c) (URI c) (DBs targets) kqlFile
    failIfDataLoss = (job, None) →
  CreateExecConfiguration c targets (Some cm) failIfDataLoss w =
    (Ret ({| KQLFile := kqlFile; JobFile := job |}, None),
     w ++ [KQLStored kql;
           WrapperCalled (URI c) (DBs targets) kqlFile failIfDataLoss]).
Proof. apply CreateExecConfiguration_built. Qed.

(** X16: each failure of [CreateExecConfiguration] returns its own error,
    unwrapped, and stops there: without a [kql] entry nothing is stored or
    generated; when storing fails the generator is never called; when the
    generator fails the schema stays stored but its reference is not
    returned. *)
Theorem X16_build_failures (c : KustoCluster) (targets : ClusterTargets)
    (cm : ConfigMap) (failIfDataLoss : bool) (w : World) :
  (Data cm !! "kql" = None →
     CreateExecConfiguration c targets (Some cm) failIfDataLoss w =
       (Ret ({| KQLFile := ""; JobFile := "" |}, Some "no kql found in configmap"),
        w)) ∧
  (∀ kql kqlFile e,
     Data cm !! "kql" = Some kql →
     StoreKQLSchemaToFile kql = (kqlFile, Some e) →
     CreateExecConfiguration c targets (Some cm) failIfDataLoss w =
       (Ret ({| KQLFile := ""; JobFile := "" |}, Some e),
        w ++ [KQLStored kql;
              Logged ErrorLevel (Some e) "failed downloading kql to file"])) ∧
  (∀ kql kqlFile job e,
     Data cm !! "kql" = Some kql →
     StoreKQLSchemaToFile kql = (kqlFile, None) →
     wrapper_CreateExecConfiguration (wrapper c) (URI c) (DBs targets) kqlFile
       failIfDataLoss = (job, Some e) →
     CreateExecConfiguration c targets (Some cm) failIfDataLoss w =
       (Ret ({| KQLFile := ""; JobFile := "" |}, Some e),
        w ++ [KQLStored kql;
              WrapperCalled (URI c) (DBs targets) kqlFile failIfDataLoss;
              Logged ErrorLevel (Some e)
                "failed generating delta kusto configuration file"])).
Proof.
  unfold CreateExecConfiguration. split_and!.
  - by intros ->.
  - intros kql kqlFile e -> Hstore.
    unfold call_StoreKQLSchemaToFile, mbind, M_bind, log, emit; cbn.
    rewrite Hstore; cbn. by rewrite <- app_assoc.
  - intros kql kqlFile job e -> Hstore Hgen.
    unfold call_StoreKQLSchemaToFile, call_wrapper_CreateExecConfiguration,
      mbind, M_bind, log, emit; cbn.
    rewrite Hstore; cbn. rewrite Hgen; cbn. by rewrite <- !app_assoc.
Qed.

(** X17: only the [kql] entry of the ConfigMap is read: setting or deleting
    any other key changes nothing. *)
Theorem X17_only_kql_is_read (c : KustoCluster) (targets : ClusterTargets)
    (cm : ConfigMap) (failIfDataLoss : bool) (k v : string) (w : World) :
  k ≠ "kql" →
  CreateExecConfiguration c targets (Some {| Data := <[k := v]> (Data cm) |})
      failIfDataLoss w
    = CreateExecConfiguration c targets (Some cm) failIfDataLoss w ∧
  CreateExecConfiguration c targets (Some {| Data := delete k (Data cm) |})
      failIfDataLoss w
    = CreateExecConfiguration c targets (Some cm) failIfDataLoss w.
Proof.
  intros Hk. unfold CreateExecConfiguration. cbn [Data].
  by rewrite lookup_insert_ne, lookup_delete_ne.
Qed.

(** X18: a configuration returned without error was built in full: the
    ConfigMap was there with a [kql] entry, [KQLFile] is the reference under
    which that schema was stored, and [JobFile] is what the generator made
    of the cluster URI, the targets, that reference and the flag. *)
Theorem X18_built_configuration (c : KustoCluster) (targets : ClusterTargets)
    (cfgMap : option ConfigMap) (failIfDataLoss : bool) (w : World)
    (config : ExecutionConfiguration) (w' : World) :
  CreateExecConfiguration c targets cfgMap failIfDataLoss w
    = (Ret (config, None), w') →
  ∃ cm kql,
    cfgMap = Some cm ∧
    Data cm !! "kql" = Some kql ∧
    StoreKQLSchemaToFile kql = (KQLFile config, None) ∧
    wrapper_CreateExecConfiguration (wrapper c) (URI c) (DBs targets)
      (KQLFile config) failIfDataLoss = (JobFile config, None) ∧
    w' = w ++ [KQLStored kql;
               WrapperCalled (URI c) (DBs targets) (KQLFile config) failIfDataLoss].
Proof.
  unfold CreateExecConfiguration. intros H.
  destruct cfgMap as [cm |]; [| discriminate H].
  destruct (Data cm !! "kql") as [kql |] eqn:Hkql; [| discriminate H].
  revert H.
  unfold call_StoreKQLSchemaToFile, call_wrapper_CreateExecConfiguration,
    mbind, M_bind, log, emit; cbn.
  destruct (StoreKQLSchemaToFile kql) as [kqlFile [e1 |]] eqn:Hstore; cbn;
    [discriminate |].
  destruct (wrapper_CreateExecConfiguration _ _ _ _ _) as [job [e2 |]] eqn:Hgen;
    cbn; [discriminate |].
  intros [= <- <-]. exists cm, kql. cbn. by rewrite <- app_assoc.
Qed.

(** X19: build, then execute: the apply tool is run exactly on the job file
    the generator produced, once, and its verdict is the outcome; the three
    calls happen in the order store, generate, apply. *)
Theorem X19_build_then_execute (c : KustoCluster) (targets : ClusterTargets)
    (cm : ConfigMap) (failIfDataLoss : bool) (kql kqlFile job : string) (w : World) :
  Data cm !! "kql" = Some kql →
  StoreKQLSchemaToFile kql = (kqlFile, None) →
  wrapper_CreateExecConfiguration (wrapper c) (URI c) (DBs targets) kqlFile
    failIfDataLoss = (job, None) →
  ∃ config w1,
    CreateExecConfiguration c targets (Some cm) failIfDataLoss w
      = (Ret (config, None), w1) ∧
    Execute c targets config w1 =
      (Ret ({| DBs := [] |}, RunDeltaKusto job),
       w ++ [KQLStored kql;
             WrapperCalled (URI c) (DBs targets) kqlFile failIfDataLoss;
             DeltaKustoRun job]).
Proof.
  intros Hkql Hstore Hgen. eexists _, _. split.
  - by apply CreateExecConfiguration_built.
  - unfold Execute, call_RunDeltaKusto, mbind, M_bind, emit; cbn.
    by rewrite <- app_assoc.
Qed.

End execution_paths.

(** ** The further properties on concrete runs *)

Lemma X1_ClusterNameFromURI_domain_witness :
  strings.Index "xhttps://a.b" "https://" = Some 1 ∧
  ClusterNameFromURI "xhttps://a.b" = Ret "a".
Proof.
  split; [reflexivity |].
  apply (proj2 (proj2 (X1_ClusterNameFromURI_domain "xhttps://a.b")) 1).
  reflexivity.
Defined.

Lemma X2_ClusterNameFromURI_name_witness :
  strings.Index "fabrikam" "." = None ∧
  strings.Index "fabrikam" "https://" = None ∧
  ∀ rest, ClusterNameFromURI ("https://" +:+ ("fabrikam" +:+ ("." +:+ rest)))
          = Ret "fabrikam".
Proof.
  apply (X2_ClusterNameFromURI_name fabrikam_uri "fabrikam"). reflexivity.
Defined.

Lemma X3_ClusterNameFromURI_dotless_witness :
  ClusterNameFromURI "https://localhost:8080/kusto" = Ret "localhost:8080/kusto".
Proof.
  apply (X3_ClusterNameFromURI_dotless "localhost:8080/kusto"); reflexivity.
Defined.

Lemma X4_ListDatabases_query_refused_witness :
  ∃ w',
    ListDatabases (collaborators := healthy) fabrikam_refused "db" []
      = (Ret ([], Some "403 Forbidden"), w') ∧
    w' = [] ++ [MgmtCalled "" show_databases;
                Logged ErrorLevel (Some "403 Forbidden") "Failed to query mgmt api"] ∧
    mgmt_calls w' = mgmt_calls [] + 1 ∧
    iter_stops w' = iter_stops [].
Proof.
  apply (X4_ListDatabases_query_refused (collaborators := healthy)
           fabrikam_refused "db"
           (re2.Alternate (re2.concat_of (re2.literal_items "db")) re2.NoMatch)
           "403 Forbidden" []); reflexivity.
Defined.



Lemma X6_iterator_released_witness :
  ∃ r w1,
    ListDatabases (collaborators := healthy) fabrikam_ragged "db" []
      = (r, w1 ++ [IterStopped]) ∧
    iter_stops (w1 ++ [IterStopped]) = iter_stops [] + 1.
Proof.
  apply (X6_iterator_released (collaborators := healthy) fabrikam_ragged "db"
           (re2.Alternate (re2.concat_of (re2.literal_items "db")) re2.NoMatch)
           {| pending := [IsRow {| Values := ["db"] |}; IsRow {| Values := [] |};
                          IsRow {| Values := ["db1"] |}];
              terminal := None |} []); reflexivity.
Defined.

Lemma X7_row_without_columns_panics_witness :
  ListDatabases (collaborators := healthy) fabrikam_ragged "db" []
    = (Panic (IndexOutOfRange 0 0), [MgmtCalled "" show_databases; IterStopped]).
Proof.
  apply (X7_row_without_columns_panics (collaborators := healthy) fabrikam_ragged
           "db" (re2.Alternate (re2.concat_of (re2.literal_items "db")) re2.NoMatch)
           {| pending := [IsRow {| Values := ["db"] |}; IsRow {| Values := [] |};
                          IsRow {| Values := ["db1"] |}];
              terminal := None |}
           [IsRow {| Values := ["db"] |}] [IsRow {| Values := ["db1"] |}] []);
    [reflexivity | reflexivity | reflexivity | repeat constructor; done].
Defined.

Lemma X9_no_targets_beside_an_error_witness :
  DBs {| DBs := [] |} = [] ∧
  last [MgmtCalled "" show_databases;
        Logged ErrorLevel (Some "403 Forbidden") "Failed to query mgmt api";
        Logged ErrorLevel (Some "403 Forbidden")
          "failed retriving list of dbs from cluster"]
    = Some (Logged ErrorLevel (Some "403 Forbidden")
              "failed retriving list of dbs from cluster").
Proof.
  apply (X9_no_targets_beside_an_error (collaborators := healthy) fabrikam_refused
           (filter_single "db") [] {| DBs := [] |} "403 Forbidden").
  reflexivity.
Defined.

Lemma X10_invalid_single_db_no_fallback_witness :
  AquireTargets (collaborators := healthy) fabrikam
    {| DB := "("; DBS := ["db1"]; Webhook := "https://targets.example"; Label := "prod" |}
    []
  = (Ret ({| DBs := [] |}, Some "error parsing regexp: missing closing ): `(`"),
     [] ++ [Logged ErrorLevel (Some "error parsing regexp: missing closing ): `(`")
              ("parameter proveded is not a valid regexp: " +:+ "(");
            Logged ErrorLevel (Some "error parsing regexp: missing closing ): `(`")
              "failed retriving list of dbs from cluster"]).
Proof.
  apply (X10_invalid_single_db_no_fallback (collaborators := healthy) fabrikam
           {| DB := "("; DBS := ["db1"]; Webhook := "https://targets.example";
              Label := "prod" |});
    [discriminate | reflexivity].
Defined.

Lemma X11_webhook_needs_the_scheme_witness :
  AquireTargets (collaborators := healthy) fabrikam_no_scheme
    (filter_webhook "https://targets.example" "prod") []
  = (Panic (IndexOutOfRange 1 1), []).
Proof.
  apply (X11_webhook_needs_the_scheme (collaborators := healthy) fabrikam_no_scheme
           (filter_webhook "https://targets.example" "prod") []);
    [reflexivity | reflexivity | discriminate | reflexivity].
Defined.

Lemma X12_webhook_outcome_witness :
  AquireTargets (collaborators := webhook_down) fabrikam
    (filter_webhook "https://targets.example" "prod") []
  = (Ret ({| DBs := [] |}, Some "webhook: 503 Service Unavailable"),
     [] ++ [WebhookCalled "https://targets.example" "fabrikam" "prod";
            Logged ErrorLevel (Some "webhook: 503 Service Unavailable")
              "failed retriving list of dbs from cluster"]).
Proof.
  apply (X12_webhook_outcome (collaborators := webhook_down) fabrikam
           (filter_webhook "https://targets.example" "prod") "fabrikam" []);
    [reflexivity | reflexivity | discriminate | reflexivity].
Defined.

Lemma X14_no_filter_selects_all_witness :
  AquireTargets (collaborators := healthy) fabrikam (filter_list []) []
  = (Ret ({| DBs := ["db"; "db1"; "mydb2"; "other"] |}, None),
     [] ++ [Logged InfoLevel None "Missing db filter - taking all dbs in the cluster";
            MgmtCalled "" show_databases] ++ [] ++ [IterStopped]).
Proof.
  apply (X14_no_filter_selects_all (collaborators := healthy) fabrikam
           (filter_list []) (iterator_of ["db"; "db1"; "mydb2"; "other"] None) []
           re2_empty_pattern_law eq_refl eq_refl eq_refl eq_refl eq_refl
           (iterator_of_wellformed _ _)).
Defined.

Lemma X15_build_succeeds_witness :
  CreateExecConfiguration (collaborators := healthy) fabrikam {| DBs := [] |}
    (Some cm_with_kql) true []
  = (Ret ({| KQLFile := "/tmp/schema.kql"; JobFile := "/tmp/delta-kusto.yaml" |}, None),
     [] ++ [KQLStored ".create table T (x: int)";
            WrapperCalled fabrikam_uri [] "/tmp/schema.kql" true]).
Proof.
  apply (X15_build_succeeds (collaborators := healthy) fabrikam {| DBs := [] |}
           cm_with_kql true ".create table T (x: int)" "/tmp/schema.kql"
           "/tmp/delta-kusto.yaml" []); reflexivity.
Defined.

Lemma X16_build_failures_witness :
  CreateExecConfiguration (collaborators := healthy) fabrikam {| DBs := ["db"] |}
    (Some cm_without_kql) false []
  = (Ret ({| KQLFile := ""; JobFile := "" |}, Some "no kql found in configmap"), []) ∧
  CreateExecConfiguration (collaborators := no_storage) fabrikam {| DBs := ["db"] |}
    (Some cm_with_kql) false []
  = (Ret ({| KQLFile := ""; JobFile := "" |}, Some "no space left on device"),
     [] ++ [KQLStored ".create table T (x: int)";
            Logged ErrorLevel (Some "no space left on device")
              "failed downloading kql to file"]) ∧
  CreateExecConfiguration (collaborators := healthy) fabrikam_no_generator
    {| DBs := ["db"] |} (Some cm_with_kql) false []
  = (Ret ({| KQLFile := ""; JobFile := "" |}, Some "delta-kusto exited with status 1"),
     [] ++ [KQLStored ".create table T (x: int)";
            WrapperCalled fabrikam_uri ["db"] "/tmp/schema.kql" false;
            Logged ErrorLevel (Some "delta-kusto exited with status 1")
              "failed generating delta kusto configuration file"]).
Proof.
  split_and!.
  - apply (proj1 (X16_build_failures (collaborators := healthy) fabrikam
                    {| DBs := ["db"] |} cm_without_kql false [])).
    reflexivity.
  - apply (proj1 (proj2 (X16_build_failures (collaborators := no_storage) fabrikam
                           {| DBs := ["db"] |} cm_with_kql false []))
             ".create table T (x: int)" ""); reflexivity.
  - apply (proj2 (proj2 (X16_build_failures (collaborators := healthy)
                           fabrikam_no_generator {| DBs := ["db"] |} cm_with_kql
                           false []))
             ".create table T (x: int)" "/tmp/schema.kql" ""); reflexivity.
Defined.

Lemma X17_only_kql_is_read_witness :
  CreateExecConfiguration (collaborators := healthy) fabrikam {| DBs := ["db"] |}
    (Some {| Data := <["owner" := "data-platform"]> (Data cm_with_kql) |}) false []
  = CreateExecConfiguration (collaborators := healthy) fabrikam {| DBs := ["db"] |}
      (Some cm_with_kql) false [] ∧
  CreateExecConfiguration (collaborators := healthy) fabrikam {| DBs := ["db"] |}
    (Some {| Data := delete "owner" (Data cm_with_kql) |}) false []
  = CreateExecConfiguration (collaborators := healthy) fabrikam {| DBs := ["db"] |}
      (Some cm_with_kql) false [].
Proof.
  apply (X17_only_kql_is_read (collaborators := healthy) fabrikam
           {| DBs := ["db"] |} cm_with_kql false "owner" "data-platform" []).
  discriminate.
Defined.

Lemma X18_built_configuration_witness :
  ∃ cm kql,
    Some cm_with_kql = Some cm ∧
    Data cm !! "kql" = Some kql ∧
    StoreKQLSchemaToFile (Collaborators := healthy) kql = ("/tmp/schema.kql", None) ∧
    wrapper_CreateExecConfiguration (wrapper fabrikam) (URI fabrikam) ["db"]
      "/tmp/schema.kql" true = ("/tmp/delta-kusto.yaml", None) ∧
    [KQLStored ".create table T (x: int)";
     WrapperCalled fabrikam_uri ["db"] "/tmp/schema.kql" true]
    = [] ++ [KQLStored kql;
             WrapperCalled (URI fabrikam) ["db"] "/tmp/schema.kql" true].
Proof.
  apply (X18_built_configuration (collaborators := healthy) fabrikam
           {| DBs := ["db"] |} (Some cm_with_kql) true []
           {| KQLFile := "/tmp/schema.kql"; JobFile := "/tmp/delta-kusto.yaml" |}
           [KQLStored ".create table T (x: int)";
            WrapperCalled fabrikam_uri ["db"] "/tmp/schema.kql" true]).
  reflexivity.
Defined.

Lemma X19_build_then_execute_witness :
  ∃ config w1,
    CreateExecConfiguration (collaborators := apply_fails) fabrikam
      {| DBs := ["db"] |} (Some cm_with_kql) true [] = (Ret (config, None), w1) ∧
    Execute (collaborators := apply_fails) fabrikam {| DBs := ["db"] |} config w1
    = (Ret ({| DBs := [] |}, Some "delta-kusto exited with status 1"),
       [] ++ [KQLStored ".create table T (x: int)";
              WrapperCalled fabrikam_uri ["db"] "/tmp/schema.kql" true;
              DeltaKustoRun "/tmp/delta-kusto.yaml"]).
Proof.
  apply (X19_build_then_execute (collaborators := apply_fails) fabrikam
           {| DBs := ["db"] |} cm_with_kql true ".create table T (x: int)"
           "/tmp/schema.kql" "/tmp/delta-kusto.yaml" []); reflexivity.
Defined.

Lemma X20_lower_fields_ignored_witness :
  AquireTargets (collaborators := healthy) fabrikam
    {| DB := "db"; DBS := ["x"; "y"]; Webhook := "https://targets.example";
       Label := "prod" |} []
  = AquireTargets (collaborators := healthy) fabrikam_no_generator
      (filter_single "db") [].
Proof.
  apply (X20_lower_fields_ignored (collaborators := healthy) fabrikam
           fabrikam_no_generator
           {| DB := "db"; DBS := ["x"; "y"]; Webhook := "https://targets.example";
              Label := "prod" |}
           (filter_single "db") []); reflexivity.
Defined.

Lemma X21_no_match_is_no_error_witness :
  ∃ w',
    ListDatabases (collaborators := healthy) fabrikam "staging" []
      = (Ret ([], None), w') ∧
    AquireTargets (collaborators := healthy) fabrikam (filter_single "staging") []
      = (Ret ({| DBs := [] |}, None), w').
Proof.
  apply (X21_no_match_is_no_error (collaborators := healthy) fabrikam
           (filter_single "staging")
           (re2.Alternate (re2.concat_of (re2.literal_items "staging")) re2.NoMatch)
           (iterator_of ["db"; "db1"; "mydb2"; "other"] None) []);
    [discriminate | reflexivity | reflexivity | reflexivity
    | apply iterator_of_wellformed |].
  intros d Hd. apply list_elem_of_In in Hd. simpl in Hd.
  destruct Hd as [<- | [<- | [<- | [<- | []]]]]; reflexivity.
Defined.
